(** * doatools.model.arrays: array designs and their steering matrices

    A shallow embedding of [src/doatools/model/arrays.py].  Python objects
    live in a heap (dictionaries and [ArrayDesign] instances are reached
    through references, so sharing between a design and its copies is
    visible), exceptions are results, and NumPy's numeric operators are the
    methods of a type class: the development holds for every implementation
    of them. *)

From Stdlib Require Import ZArith Lia Ascii String.
From stdpp Require Import base tactics option list strings pretty.

Local Open Scope string_scope.
Local Open Scope list_scope.
Local Open Scope Z_scope.

(** ** Exceptions and results *)

(** The texts of the [ValueError]s raised in [arrays.py], one constructor per
    message; the last two are NumPy's own: a shape mismatch, and the truth
    value of an array with more than one element. *)
Inductive message :=
  | ExpectingVectorOrMatrix               (* Expecting an 1D vector or a 2D matrix. *)
  | ArrayOnly1D2D3D                       (* Array can only be 1D, 2D or 3D. *)
  | UnsupportedPerturbationType (k : string)
  | TwoElementTuple                       (* Perturbation details should be specified by a two-element tuple. *)
  | PerturbationFilter                    (* Perturbation can only be all, known, or none. *)
  | NotCoPrime (m n : Z)                  (* {0} and {1} are not co-prime. *)
  | UnknownMode (mode : string)
  | MRLAPresets                           (* The MRLA presets only support up to 20 elements. *)
  | Broadcast
  | AmbiguousTruthValue.

Inductive exn :=
  | ValueError (m : message)
  | TypeError
  | IndexError
  | AttributeError.

(** The error taxonomy of the specification (section 7).  The code raises
    [ValueError] for all three kinds; they are told apart by the message. *)
Inductive error_kind := InvalidGeometry | InvalidPerturbation | InvalidArgument.

Definition taxonomy (e : exn) : option error_kind :=
  match e with
  | ValueError ExpectingVectorOrMatrix | ValueError ArrayOnly1D2D3D => Some InvalidGeometry
  | ValueError (UnsupportedPerturbationType _) | ValueError TwoElementTuple =>
      Some InvalidPerturbation
  | ValueError PerturbationFilter | ValueError (NotCoPrime _ _)
  | ValueError (UnknownMode _) | ValueError MRLAPresets => Some InvalidArgument
  | _ => None
  end.

(** The outcome of a Python expression: a value or a raised exception.
    [Stuck] is no Python behaviour: it marks a state that follows a reference
    to an object that was never allocated. *)
Inductive result (A : Type) :=
  | Ok (a : A)
  | Raise (e : exn)
  | Stuck.
Arguments Ok {A} a.
Arguments Raise {A} e.
Arguments Stuck {A}.

#[export] Instance result_ret : MRet result := @Ok.
#[export] Instance result_bind : MBind result := λ A B f r,
  match r with Ok a => f a | Raise e => Raise e | Stuck => Stuck end.
#[export] Instance result_fmap : FMap result := λ A B f r,
  match r with Ok a => Ok (f a) | Raise e => Raise e | Stuck => Stuck end.

(** [for x in l: body(x)] for a body that returns nothing. *)
Fixpoint for_each {A} (body : A → result unit) (l : list A) : result unit :=
  match l with
  | [] => Ok ()
  | x :: l' => body x ≫= λ _, for_each body l'
  end.

(** [[body(x) for x in l]] *)
Fixpoint comprehension {A B} (body : A → result B) (l : list A) : result (list B) :=
  match l with
  | [] => Ok []
  | x :: l' => y ← body x; ys ← comprehension body l'; Ok (y :: ys)
  end.

(** A subscript [d[k]] of a dictionary gives the value of [k] or raises
    [KeyError(k)]. *)
Inductive keyed (A : Type) :=
  | Value (a : A)
  | KeyError (k : string).
Arguments Value {A} a.
Arguments KeyError {A} k.

(** ** NumPy arrays *)

(** The element type of an array, up to its width: the kinds of numbers that
    NumPy's casting rules tell apart, each under the name of its default
    type.  Arrays of anything else (objects, strings, dates) do not occur. *)
Inductive dtype := Bool_ | Int64 | Float64 | Complex128.

Definition dtype_rank (t : dtype) : nat :=
  match t with Bool_ => 0 | Int64 => 1 | Float64 => 2 | Complex128 => 3 end.

(** [np.result_type(s, t)]: the element type of [a + b] and of [a * b]. *)
Definition result_type (s t : dtype) : dtype :=
  if (dtype_rank s <=? dtype_rank t)%nat then t else s.

(** [np.can_cast(s, t, casting='same_kind')]: the rule of the in-place
    operators, which store a result of type [s] in an array of type [t]. *)
Definition can_cast (s t : dtype) : bool := (dtype_rank s <=? dtype_rank t)%nat.


(** An [ndarray]: its element type, its shape and its elements in row-major
    order. *)
Record ndarray (T : Type) :=
  Ndarray { nd_dtype : dtype; shape : list nat; flat : list T }.
Arguments Ndarray {T} nd_dtype shape flat.
Arguments nd_dtype {T} _.
Arguments shape {T} _.
Arguments flat {T} _.

Section ndarray.
Context {T : Type}.

Definition nd_ndim (a : ndarray T) : nat := length (shape a).

(** The number of elements a shape holds. *)
Definition shape_size (sh : list nat) : nat := foldr Nat.mul 1%nat sh.

Definition wf_ndarray (a : ndarray T) : Prop := length (flat a) = shape_size (shape a).

(** [a.shape[i]] *)
Definition shape_at (a : ndarray T) (i : nat) : result nat :=
  match shape a !! i with Some n => Ok n | None => Raise IndexError end.

(** [a.reshape((-1, 1))] *)
Definition reshape_column (a : ndarray T) : ndarray T :=
    Ndarray (nd_dtype a) [length (flat a); 1%nat] (flat a).

(** [a[i]] for an integer [i >= 0]: the [i]-th sub-array along the first axis. *)
Definition nd_getitem (a : ndarray T) (i : nat) : result (ndarray T) :=
    match shape a with
    | [] => Raise IndexError
    | n :: sh =>
        if (i <? n)%nat
        then Ok (Ndarray (nd_dtype a) sh
                   (take (shape_size sh) (drop (i * shape_size sh) (flat a))))
        else Raise IndexError
    end.

(** The sub-arrays [a[1], a[2], ...] that [for X in a[1:]] runs over. *)
Definition nd_tail (a : ndarray T) : result (list (ndarray T)) :=
    match shape a with
    | [] => Raise IndexError
    | n :: _ => comprehension (nd_getitem a) (seq 1 (n - 1))
    end.

(** [a[i, j]] of a matrix with [c] columns. *)
Definition entry (c : nat) (l : list T) (i j : nat) : option T := l !! (i * c + j)%nat.

End ndarray.

(** [np.array(l)] for a list of Python integers, and the same as one column
    ([np.array(l)[:, np.newaxis]], [np.array(l).reshape((-1, 1))]). *)
Definition vector (l : list Z) : ndarray Z := Ndarray Int64 [length l] l.
Definition column (l : list Z) : ndarray Z := Ndarray Int64 [length l; 1%nat] l.

(** [np.arange(a, b)] for Python integers.  The elements are unbounded
    integers: they are the elements of the 64-bit array as long as no product
    of them leaves [int64_range], where NumPy wraps around. *)
Definition arange (a b : Z) : list Z := (λ i : nat, a + Z.of_nat i) <$> seq 0 (Z.to_nat (b - a)).

(** ** Python values *)

(** The values that reach [arrays.py]: arrays, numbers, booleans, [None],
    tuples and lists. *)
#[local] Set Warnings "-register-all".
Inductive pyobj (F : Type) :=
  | PyNdarray (a : ndarray F)
  | PyNumber (x : F)
  | PyBool (b : bool)
  | PyNone
  | PyTuple (items : list (pyobj F))
  | PyList (items : list (pyobj F)).
Arguments PyNdarray {F} a.
Arguments PyNumber {F} x.
Arguments PyBool {F} b.
Arguments PyNone {F}.
Arguments PyTuple {F} items.
Arguments PyList {F} items.

(** NumPy and the Python operators on dynamically typed operands.  None of
    this code is in the repository: the scalar arithmetic of the element type,
    the literals [1.] and [1j], truth values, [np.array], the broadcasting
    operators [+], [*] and [@], [np.exp], and the in-place addition
    [a[:, :k] += b] on operands that are not both matrices.  [s_dtype x] is
    the element type of an array made of the number [x]
    ([np.result_type(x)]). *)
Class Numpy (F : Type) := {
  s_add : F → F → F;
  s_mul : F → F → F;
  s_of_Z : Z → F;
  s_dtype : F → dtype;
  s_truth : F → bool;
  s_1 : F;
  s_1j : F;
  np_array : pyobj F → result (ndarray F);
  nd_truth : ndarray F → result bool;
  py_add : pyobj F → pyobj F → result (pyobj F);
  py_mul : pyobj F → pyobj F → result (pyobj F);
  py_matmul : pyobj F → pyobj F → result (pyobj F);
  np_exp : pyobj F → result (pyobj F);
  nd_iadd_columns : ndarray F → nat → ndarray F → result (ndarray F)
}.

#[export] Instance numpy_inhabited `{Numpy F} : Inhabited F := populate s_1.

Section python.
Context `{Numpy F}.

(** [isinstance(v, tuple)] *)
Definition isinstance_tuple (v : pyobj F) : bool :=
  match v with PyTuple _ => true | _ => false end.

(** [len(v)] *)
Definition py_len (v : pyobj F) : result nat :=
  match v with
  | PyTuple items | PyList items => Ok (length items)
  | PyNdarray a => match shape a with n :: _ => Ok n | [] => Raise TypeError end
  | _ => Raise TypeError
  end.

(** [v[i]] for an integer [i >= 0] *)
Definition py_getitem (v : pyobj F) (i : nat) : result (pyobj F) :=
  match v with
  | PyTuple items | PyList items =>
      match items !! i with Some x => Ok x | None => Raise IndexError end
  | PyNdarray a => PyNdarray <$> nd_getitem a i
  | _ => Raise TypeError
  end.

(** The values [for X in v[1:]] runs over. *)
Definition py_tail (v : pyobj F) : result (list (pyobj F)) :=
  match v with
  | PyTuple items | PyList items => Ok (drop 1 items)
  | PyNdarray a => fmap (M := list) PyNdarray <$> nd_tail a
  | _ => Raise TypeError
  end.

(** The truth value of [v], as [if v] takes it. *)
Definition py_truth (v : pyobj F) : result bool :=
  match v with
  | PyBool b => Ok b
  | PyNone => Ok false
  | PyNumber x => Ok (s_truth x)
  | PyTuple items | PyList items => Ok (negb (bool_decide (items = [])))
  | PyNdarray a => nd_truth a
  end.

(** [v.shape[i]]: only arrays have a shape. *)
Definition py_shape_at (v : pyobj F) (i : nat) : result nat :=
  match v with
  | PyNdarray a => shape_at a i
  | _ => Raise AttributeError
  end.

(** [indices * d0] for an integer array and a number. *)
Definition scale_indices (indices : ndarray Z) (d0 : F) : ndarray F :=
  Ndarray (result_type (nd_dtype indices) (s_dtype d0)) (shape indices)
    ((λ i, s_mul (s_of_Z i) d0) <$> flat indices).

(** NumPy broadcasting along one axis: an operand of size [n'] fits an axis
    of size [n] when the sizes agree or [n' = 1], and then its only element
    is used at every index. *)
Definition broadcastable (n' n : nat) : bool := (n' =? n)%nat || (n' =? 1)%nat.
Definition broadcast_index (n' i : nat) : nat := if (n' =? 1)%nat then 0%nat else i.

(** [a[:, :k] += b].  For two matrices the slice has [min k c] columns and
    [b] is broadcast to it; other ranks are left to NumPy.  The sum has the
    type [result_type] of the two and is stored in [a]: NumPy first refuses,
    with a [UFuncTypeError] (a [TypeError]), a sum that [a] cannot take by
    [can_cast], such as real numbers added to an array of integers. *)
Definition iadd_columns (a : ndarray F) (k : nat) (b : ndarray F) : result (ndarray F) :=
  match shape a, shape b with
  | [m; c], [m'; c'] =>
      let w := (k `min` c)%nat in
      if negb (can_cast (result_type (nd_dtype a) (nd_dtype b)) (nd_dtype a))
      then Raise TypeError
      else if broadcastable m' m && broadcastable c' w then
        Ok (Ndarray (nd_dtype a) [m; c]
              (flat_map (λ i, (λ j,
                   if (j <? w)%nat
                   then s_add (flat a !!! (i * c + j)%nat)
                              (flat b !!! (broadcast_index m' i * c' + broadcast_index c' j)%nat)
                   else flat a !!! (i * c + j)%nat) <$> seq 0 c) (seq 0 m)))
      else Raise (ValueError Broadcast)
  | _, _ => nd_iadd_columns a k b
  end.

(** ** Dictionaries *)

(** A Python [dict] with string keys: the entries in insertion order, no key
    twice. *)
Definition pdict : Type := list (string * pyobj F).

(** [d.get(k)] ([None] for a missing key) and [k in d] *)
Fixpoint dict_get (d : pdict) (k : string) : option (pyobj F) :=
  match d with
  | [] => None
  | (k', v) :: d' => if decide (k' = k) then Some v else dict_get d' k
  end.

Definition dict_contains (d : pdict) (k : string) : bool :=
  match dict_get d k with Some _ => true | None => false end.

(** [d[k] = v]: an existing key keeps its place, a new one goes last. *)
Fixpoint dict_set (d : pdict) (k : string) (v : pyobj F) : pdict :=
  match d with
  | [] => [(k, v)]
  | (k', v') :: d' => if decide (k' = k) then (k', v) :: d' else (k', v') :: dict_set d' k v
  end.

(** [{**a, **b}] *)
Definition dict_merge (a b : pdict) : pdict :=
  foldl (λ acc kv, dict_set acc kv.1 kv.2) a b.

Definition dict_keys (d : pdict) : list string := fst <$> d.
End python.
Arguments pdict F : clear implicits.

(** ** The heap *)

Definition addr := nat.
Bind Scope nat_scope with addr.

(** An instance of [ArrayDesign] or of one of its subclasses: the attributes
    of its [__dict__].  The first three are set by [ArrayDesign.__init__];
    the others exist only once a method or a subclass has assigned them. *)
Record instance (F : Type) := MkInstance {
  _locations : ndarray F;
  _name : string;
  _perturbations : addr;
  _perturbation : option addr;
  _element_indices : option (ndarray Z);
  _d0 : option F;
  _coprime_pair : option (Z * Z);
  _mode : option string
}.
Arguments MkInstance {F}.
Arguments _locations {F} _.
Arguments _name {F} _.
Arguments _perturbations {F} _.
Arguments _perturbation {F} _.
Arguments _element_indices {F} _.
Arguments _d0 {F} _.
Arguments _coprime_pair {F} _.
Arguments _mode {F} _.

(** Dictionaries and instances are reached by reference; [warnings] collects
    what [warnings.warn] was given. *)
Record heap (F : Type) := Heap {
  dicts : list (pdict F);
  objects : list (instance F);
  warnings : list string
}.
Arguments Heap {F}.
Arguments dicts {F} _.
Arguments objects {F} _.
Arguments warnings {F} _.

(** The dictionary [{}] that is the default value of the parameter
    [perturbations] of [ArrayDesign.__init__]: Python creates it once, when
    the class is defined, and every call that omits the argument gets this
    same object. *)
Definition default_perturbations : addr := 0%nat.
Definition heap0 {F} : heap F := Heap [[]] [] [].

Section monad.
Context `{Numpy F}.

(** A computation reads and extends the heap and returns or raises. *)
Definition M (A : Type) : Type := heap F → result A * heap F.

#[export] Instance M_ret : MRet M := λ A a h, (Ok a, h).
#[export] Instance M_bind : MBind M := λ A B f m h,
  match m h with
  | (Ok a, h') => f a h'
  | (Raise e, h') => (Raise e, h')
  | (Stuck, h') => (Stuck, h')
  end.

Definition lift {A} (r : result A) : M A := λ h, (r, h).
Definition raise {A} (e : exn) : M A := lift (Raise e).

Definition get_dict (a : addr) : M (pdict F) := λ h,
  (match dicts h !! a with Some d => Ok d | None => Stuck end, h).

Definition get_object (a : addr) : M (instance F) := λ h,
  (match objects h !! a with Some o => Ok o | None => Stuck end, h).

Definition new_dict (d : pdict F) : M addr := λ h,
  (Ok (length (dicts h)), Heap (dicts h ++ [d]) (objects h) (warnings h)).

Definition new_object (o : instance F) : M addr := λ h,
  (Ok (length (objects h)), Heap (dicts h) (objects h ++ [o]) (warnings h)).

(** An attribute assignment [self.attr = v], given as the change to the
    instance. *)
Definition setattr (a : addr) (f : instance F → instance F) : M unit := λ h,
  match objects h !! a with
  | Some o => (Ok (), Heap (dicts h) (<[a := f o]> (objects h)) (warnings h))
  | None => (Stuck, h)
  end.

(** [warnings.warn(w)] *)
Definition warn (w : string) : M unit := λ h,
  (Ok (), Heap (dicts h) (objects h) (warnings h ++ [w])).

Definition with_name (v : string) (o : instance F) : instance F :=
  MkInstance (_locations o) v (_perturbations o) (_perturbation o)
    (_element_indices o) (_d0 o) (_coprime_pair o) (_mode o).
Definition with_perturbations (v : addr) (o : instance F) : instance F :=
  MkInstance (_locations o) (_name o) v (_perturbation o)
    (_element_indices o) (_d0 o) (_coprime_pair o) (_mode o).
Definition with_perturbation (v : addr) (o : instance F) : instance F :=
  MkInstance (_locations o) (_name o) (_perturbations o) (Some v)
    (_element_indices o) (_d0 o) (_coprime_pair o) (_mode o).
End monad.
Arguments M F A : clear implicits.

(** The collaborator [sources]: its one method used here.  It is called as
    [sources.phase_delay_matrix(locations, wavelength, compute_derivatives)]. *)
Record SourcePlacement (F : Type) := {
  phase_delay_matrix : ndarray F → pyobj F → bool → result (pyobj F)
}.
Arguments phase_delay_matrix {F} _ _ _ _.

Definition PERTURBATION_TYPES : list string :=
  ["location_errors"; "gain_errors"; "phase_errors"; "mutual_coupling"].

(** ** class ArrayDesign *)

Module ArrayDesign.
Section methods.
Context `{Numpy F}.

(** The body of the loop of [_validate_perturbations], for one item [(k, v)].
    The second test is [not isinstance(v, tuple) and len(v) != 2]: [len] is
    evaluated only when [v] is not a tuple. *)
Definition validate_item (kv : string * pyobj F) : result unit :=
  let '(k, v) := kv in
  if negb (bool_decide (k ∈ PERTURBATION_TYPES))
  then Raise (ValueError (UnsupportedPerturbationType k))
  else if negb (isinstance_tuple v)
  then n ← py_len v;
       if negb (n =? 2)%nat then Raise (ValueError TwoElementTuple) else Ok ()
  else Ok ().

Definition _validate_perturbations (perturbations : addr) : M F unit :=
  d ← get_dict perturbations;
  lift (for_each validate_item d).

(** [__init__] gives the attributes of the new instance; the constructor
    call [ArrayDesign(locations, name, perturbations)] stores them.
    [as_ndarray] is the first statement: [np.array] for what is no array. *)
Definition as_ndarray (locations : pyobj F) : result (ndarray F) :=
  match locations with
  | PyNdarray a => Ok a
  | _ => np_array locations
  end.

Definition __init__ (locations : pyobj F) (name : string) (perturbations : addr)
    : M F (instance F) :=
  locations ← lift (as_ndarray locations);
  if (2 <? nd_ndim locations)%nat then raise (ValueError ExpectingVectorOrMatrix) else
  locations ← (if (nd_ndim locations =? 1)%nat then mret (reshape_column locations)
               else c ← lift (shape_at locations 1);
                    if (3 <? c)%nat then raise (ValueError ArrayOnly1D2D3D)
                    else mret locations);
  _validate_perturbations perturbations;;
  mret (MkInstance locations name perturbations None None None None None).

Definition new (locations : pyobj F) (name : string) (perturbations : option addr)
    : M F addr :=
  o ← __init__ locations name (default default_perturbations perturbations);
  new_object o.

Definition name (self : addr) : M F string :=
  o ← get_object self; mret (_name o).

Definition size (self : addr) : M F nat :=
  o ← get_object self; lift (shape_at (_locations o) 0).

(** [self._locations.copy()]: arrays are values here, a copy is the array. *)
Definition element_locations (self : addr) : M F (ndarray F) :=
  o ← get_object self; mret (_locations o).

Definition ndim (self : addr) : M F nat :=
  o ← get_object self;
  if (nd_ndim (_locations o) =? 1)%nat then mret 1%nat
  else lift (shape_at (_locations o) 1).

Definition _compute_actual_locations (self : addr) (location_errors : pyobj F)
    : M F (ndarray F) :=
  actual_ndim ← ndim self;
  loc_err_dim ← lift (py_shape_at location_errors 1);
  o ← get_object self;
  match location_errors with
  | PyNdarray location_errors =>
      if (loc_err_dim <=? actual_ndim)%nat
      then lift (iadd_columns (_locations o) loc_err_dim location_errors)
      else lift (iadd_columns location_errors actual_ndim (_locations o))
  | _ => raise AttributeError
  end.

Definition actual_element_locations (self : addr) : M F (ndarray F) :=
  o ← get_object self;
  d ← get_dict (_perturbations o);
  match dict_get d "location_errors" with
  | Some v => p ← lift (py_getitem v 0); _compute_actual_locations self p
  | None => element_locations self
  end.

Definition is_perturbed (self : addr) : M F bool :=
  o ← get_object self;
  d ← get_dict (_perturbations o);
  mret (0 <? length d)%nat.

Definition actual_ndim (self : addr) : M F nat :=
  o ← get_object self;
  d ← get_dict (_perturbations o);
  match dict_get d "location_errors" with
  | Some v =>
      p ← lift (py_getitem v 0);
      c ← lift (py_shape_at p 1);
      n ← ndim self;
      mret (c `max` n)%nat
  | None => ndim self
  end.

Definition has_perturbation (self : addr) (ptype : string) : M F bool :=
  o ← get_object self;
  d ← get_dict (_perturbations o);
  mret (dict_contains d ptype).

(** [copy.deepcopy(self._perturbations)]: the dictionary as a value. *)
Definition perturbations (self : addr) : M F (pdict F) :=
  o ← get_object self;
  get_dict (_perturbations o).

(** The assignment in the body is to the attribute [_perturbation]. *)
Definition get_perturbation_free_copy (self : addr) (new_name : option string)
    : M F addr :=
  o ← get_object self;
  let new_name := default (_name o) new_name in
  design ← new_object o;
  e ← new_dict [];
  setattr design (with_perturbation e);;
  setattr design (with_name new_name);;
  mret design.

Definition get_perturbed_copy (self : addr) (perturbations : addr)
    (new_name : option string) : M F addr :=
  design ← get_perturbation_free_copy self new_name;
  d ← get_object design;
  old ← get_dict (_perturbations d);
  new ← get_dict perturbations;
  new_perturbations ← new_dict (dict_merge old new);
  _validate_perturbations new_perturbations;;
  setattr design (with_perturbations new_perturbations);;
  mret design.

(** [warnings.warn(..., DeprecationWarning)] and then [self.size]. *)
Definition element_count (self : addr) : M F nat :=
  warn "Use size instead of element_count in the future.";;
  size self.

(** [self._perturbations[ptype][1]] *)
Definition is_perturbation_known (self : addr) (ptype : string) : M F (keyed (pyobj F)) :=
  o ← get_object self;
  d ← get_dict (_perturbations o);
  match dict_get d ptype with
  | Some v => x ← lift (py_getitem v 1); mret (Value x)
  | None => mret (KeyError ptype)
  end.

(** [self._perturbations[ptype][0]] *)
Definition get_perturbation_params (self : addr) (ptype : string)
    : M F (keyed (pyobj F)) :=
  o ← get_object self;
  d ← get_dict (_perturbations o);
  match dict_get d ptype with
  | Some v => x ← lift (py_getitem v 0); mret (Value x)
  | None => mret (KeyError ptype)
  end.

(** The truth value of [v[1]], the known-flag of the entry [v]. *)
Definition known_flag (v : pyobj F) : result bool :=
  x ← py_getitem v 1; py_truth x.

(** [{k: v for k, v in d.items() if v[1]}] *)
Fixpoint known_items (items : pdict F) : result (pdict F) :=
  match items with
  | [] => Ok []
  | (k, v) :: items' =>
      flag ← known_flag v;
      rest ← known_items items';
      Ok (if flag : bool then (k, v) :: rest else rest)
  end.

(** The first statement of [steering_matrix]: the dictionary [perturb_dict]. *)
Definition filter_perturbations (self : addr) (perturbations : string) : M F (pdict F) :=
  if decide (perturbations = "all")
  then o ← get_object self; get_dict (_perturbations o)
  else if decide (perturbations = "known")
  then o ← get_object self; d ← get_dict (_perturbations o); lift (known_items d)
  else if decide (perturbations = "none") then mret []
  else raise (ValueError PerturbationFilter).

(** [A] and [DA] after the statement [if k in perturb_dict: ...] that applies
    [coeff] with the operator [op]; [params] is [perturb_dict[k][0]]. *)
Definition apply_coeff (op : pyobj F → pyobj F → result (pyobj F))
    (compute_derivatives : bool) (coeff : pyobj F) (A : pyobj F) (DA : list (pyobj F))
    : result (pyobj F * list (pyobj F)) :=
  A ← op coeff A;
  DA ← (if compute_derivatives then comprehension (op coeff) DA else Ok DA);
  Ok (A, DA).

(** [np.exp(1j * x)] *)
Definition exp_1j (x : pyobj F) : result (pyobj F) :=
  y ← py_mul (PyNumber s_1j) x; np_exp y.

Definition steering_matrix (self : addr) (sources : SourcePlacement F)
    (wavelength : pyobj F) (compute_derivatives : bool) (perturbations : string)
    : M F (pyobj F) :=
  perturb_dict ← filter_perturbations self perturbations;
  actual_locations ←
    match dict_get perturb_dict "location_errors" with
    | Some v => p ← lift (py_getitem v 0); _compute_actual_locations self p
    | None => o ← get_object self; mret (_locations o)
    end;
  T ← lift (phase_delay_matrix sources actual_locations wavelength compute_derivatives);
  '(A, DA) ← lift (
    if compute_derivatives
    then T0 ← py_getitem T 0;
         A ← exp_1j T0;
         Ts ← py_tail T;
         DA ← comprehension (λ X, Y ← py_mul (PyNumber s_1j) X; py_mul A Y) Ts;
         Ok (A, DA)
    else A ← exp_1j T;
         Ok (A, []));
  '(A, DA) ← lift (
    match dict_get perturb_dict "gain_errors" with
    | Some v =>
        params ← py_getitem v 0;
        gain_coeff ← py_add (PyNumber s_1) params;
        apply_coeff py_mul compute_derivatives gain_coeff A DA
    | None => Ok (A, DA)
    end);
  '(A, DA) ← lift (
    match dict_get perturb_dict "phase_errors" with
    | Some v =>
        params ← py_getitem v 0;
        phase_coeff ← exp_1j params;
        apply_coeff py_mul compute_derivatives phase_coeff A DA
    | None => Ok (A, DA)
    end);
  '(A, DA) ← lift (
    match dict_get perturb_dict "mutual_coupling" with
    | Some v =>
        C ← py_getitem v 0;
        apply_coeff py_matmul compute_derivatives C A DA
    | None => Ok (A, DA)
    end);
  mret (if compute_derivatives then PyTuple (A :: DA) else A).
End methods.
End ArrayDesign.

(** ** class GridBasedArrayDesign *)

(** [**kwargs] is passed on to [ArrayDesign.__init__], whose only other
    parameter is [perturbations]: it is that argument, or absent. *)
Module GridBasedArrayDesign.
Section methods.
Context `{Numpy F}.

Definition __init__ (indices : ndarray Z) (d0 : F) (name : string) (kwargs : option addr)
    : M F (instance F) :=
  o ← ArrayDesign.__init__ (PyNdarray (scale_indices indices d0)) name
        (default default_perturbations kwargs);
  mret (MkInstance (_locations o) (_name o) (_perturbations o) (_perturbation o)
          (Some indices) (Some d0) (_coprime_pair o) (_mode o)).

Definition d0 (self : addr) : M F (option F) :=
  o ← get_object self; mret (_d0 o).

Definition element_indices (self : addr) : M F (option (ndarray Z)) :=
  o ← get_object self; mret (_element_indices o).
End methods.
End GridBasedArrayDesign.

(** ** class CoPrimeArray *)

(** [str.lower] on the ASCII letters. *)
Definition ascii_lower (c : ascii) : ascii :=
  let n := nat_of_ascii c in
  if (65 <=? n)%nat && (n <=? 90)%nat then ascii_of_nat (n + 32) else c.

Fixpoint lower (s : string) : string :=
  match s with
  | EmptyString => EmptyString
  | String c s' => String (ascii_lower c) (lower s')
  end.

Module CoPrimeArray.
Section methods.
Context `{Numpy F}.

(** The index list of each mode, before [reshape((-1, 1))]. *)
Definition indices_2m (m n : Z) : list Z :=
  ((λ i, i * m) <$> arange 0 n) ++ ((λ i, i * n) <$> arange 1 (2 * m)).
Definition indices_m (m n : Z) : list Z :=
  ((λ i, i * m) <$> arange 0 n) ++ ((λ i, i * n) <$> arange 1 m).

Definition __init__ (m n : Z) (d0 : F) (mode : string) (name : option string)
    (kwargs : option addr) : M F (instance F) :=
  let name := default ("Co-prime (" +:+ pretty m +:+ "," +:+ pretty n +:+ ")") name in
  '(m, n) ← (if (n <? m)%Z then warn "m > n. Swapped.";; mret (n, m) else mret (m, n));
  if negb (Z.gcd m n =? 1)%Z then raise (ValueError (NotCoPrime m n)) else
  let mode := lower mode in
  indices ← (if decide (mode = "2m") then mret (vector (indices_2m m n))
             else if decide (mode = "m") then mret (vector (indices_m m n))
             else raise (ValueError (UnknownMode mode)));
  o ← GridBasedArrayDesign.__init__ (reshape_column indices) d0 name kwargs;
  mret (MkInstance (_locations o) (_name o) (_perturbations o) (_perturbation o)
          (_element_indices o) (_d0 o) (Some (m, n)) (Some mode)).

(** [CoPrimeArray(m, n, d0, mode, name, **kwargs)]; [mode] defaults to ['2m']. *)
Definition new (m n : Z) (d0 : F) (mode : option string) (name : option string)
    (kwargs : option addr) : M F addr :=
  o ← __init__ m n d0 (default "2m" mode) name kwargs;
  new_object o.
End methods.
End CoPrimeArray.

(** ** class MinimumRedundancyLinearArray *)

Definition _MRLA_PRESETS : list (list Z) := [
  [0];
  [0; 1];
  [0; 1; 3];
  [0; 1; 4; 6];
  [0; 1; 4; 7; 9];
  [0; 1; 6; 9; 11; 13];
  [0; 1; 8; 11; 13; 15; 17];
  [0; 1; 4; 10; 16; 18; 21; 23];
  [0; 1; 4; 10; 16; 22; 24; 27; 29];
  [0; 1; 4; 10; 16; 22; 28; 30; 33; 35];
  [0; 1; 6; 14; 22; 30; 32; 34; 37; 39; 41];
  [0; 1; 6; 14; 22; 30; 38; 40; 42; 45; 47; 49];
  [0; 1; 6; 14; 22; 30; 38; 46; 48; 50; 53; 55; 57];
  [0; 1; 6; 14; 22; 30; 38; 46; 54; 56; 58; 61; 63; 65];
  [0; 1; 6; 14; 22; 30; 38; 46; 54; 62; 64; 66; 69; 71; 73];
  [0; 1; 8; 18; 28; 38; 48; 58; 68; 70; 72; 74; 77; 79; 81; 83];
  [0; 1; 8; 18; 28; 38; 48; 58; 68; 78; 80; 82; 84; 87; 89; 91; 93];
  [0; 1; 8; 18; 28; 38; 48; 58; 68; 78; 88; 90; 92; 94; 97; 99; 101; 103];
  [0; 1; 8; 18; 28; 38; 48; 58; 68; 78; 88; 98; 100; 102; 104; 107; 109; 111; 113];
  [0; 1; 10; 22; 34; 46; 58; 70; 82; 94; 106; 108; 110; 112; 114; 117; 119; 121; 123; 125]
].

Module MinimumRedundancyLinearArray.
Section methods.
Context `{Numpy F}.

(** [_MRLA_PRESETS[i]] for [i >= 0] *)
Definition preset (i : Z) : result (list Z) :=
  match _MRLA_PRESETS !! Z.to_nat i with Some row => Ok row | None => Raise IndexError end.

Definition __init__ (n : Z) (d0 : F) (name : option string) (kwargs : option addr)
    : M F (instance F) :=
  if (n <? 1)%Z || (n >=? Z.of_nat (length _MRLA_PRESETS))%Z
  then raise (ValueError MRLAPresets) else
  let name := default ("MRLA " +:+ pretty n) name in
  row ← lift (preset (n - 1));
  GridBasedArrayDesign.__init__ (column row) d0 name kwargs.

Definition new (n : Z) (d0 : F) (name : option string) (kwargs : option addr)
    : M F addr :=
  o ← __init__ n d0 name kwargs;
  new_object o.
End methods.
End MinimumRedundancyLinearArray.

(** ** A symbolic NumPy *)

(** An implementation of [Numpy] for running the code on concrete inputs.
    Numbers are terms: integer constants are computed with, everything else
    is kept as the term that was built, so a result shows which operators
    were applied and in which order.  An operator on arrays never looks inside
    its operands: its result is a zero-dimensional array holding the term of
    the whole operation. *)
Module Symbolic.

Inductive expr :=
  | Num (z : Z)
  | Var (x : string)
  | Imag
  | Add (a b : expr)
  | Mul (a b : expr)
  | MatMul (a b : expr)
  | Exp (a : expr)
  | Arr (sh : list nat) (elems : list expr).

Definition add (a b : expr) : expr :=
  match a, b with Num x, Num y => Num (x + y) | _, _ => Add a b end.

Definition mul (a b : expr) : expr :=
  match a, b with Num x, Num y => Num (x * y) | _, _ => Mul a b end.

Definition truth (a : expr) : bool :=
  match a with Num z => negb (z =? 0)%Z | _ => true end.

(** The type of a term: a constant is an integer, a variable stands for a
    real number, and an operation has the wider type of its operands. *)
Fixpoint dtype_of (a : expr) : dtype :=
  match a with
  | Num _ => Int64
  | Var _ => Float64
  | Imag => Complex128
  | Add a b | Mul a b | MatMul a b => result_type (dtype_of a) (dtype_of b)
  | Exp a => result_type Float64 (dtype_of a)
  | Arr _ elems => foldr (λ e t, result_type (dtype_of e) t) Bool_ elems
  end.

(** The type [np.array] gives a list of numbers; [float64] for no number. *)
Definition common_type (l : list expr) : dtype :=
  match l with
  | [] => Float64
  | _ => foldr (λ e t, result_type (dtype_of e) t) Bool_ l
  end.

(** The term of an operand; tuples, lists and [None] are no operands. *)
Definition term (v : pyobj expr) : result expr :=
  match v with
  | PyNumber x => Ok x
  | PyBool b => Ok (Num (if b then 1 else 0))
  | PyNdarray (Ndarray _ [] [x]) => Ok x
  | PyNdarray a => Ok (Arr (shape a) (flat a))
  | _ => Raise TypeError
  end.

Definition scalar (x : expr) : pyobj expr := PyNdarray (Ndarray (dtype_of x) [] [x]).

Definition binary (f : expr → expr → expr) (x y : pyobj expr) : result (pyobj expr) :=
  a ← term x; b ← term y; Ok (scalar (f a b)).

Definition unary (f : expr → expr) (x : pyobj expr) : result (pyobj expr) :=
  a ← term x; Ok (scalar (f a)).

Definition number (v : pyobj expr) : result expr :=
  match v with PyNumber x => Ok x | _ => Raise TypeError end.

Definition row (v : pyobj expr) : result (list expr) :=
  match v with
  | PyList items | PyTuple items => comprehension number items
  | _ => Raise TypeError
  end.

(** [np.array] on a number, a list of numbers, or a list of equally long
    lists of numbers. *)
Definition array (v : pyobj expr) : result (ndarray expr) :=
  match v with
  | PyNdarray a => Ok a
  | PyNumber x => Ok (Ndarray (dtype_of x) [] [x])
  | PyList ((PyNumber _ :: _) as items) | PyTuple ((PyNumber _ :: _) as items) =>
      (λ l, Ndarray (common_type l) [length l] l) <$> comprehension number items
  | PyList [] | PyTuple [] => Ok (Ndarray Float64 [0%nat] [])
  | PyList ((r :: _) as items) | PyTuple ((r :: _) as items) =>
      c ← length <$> row r;
      rows ← comprehension row items;
      if forallb (λ r, length r =? c)%nat rows
      then Ok (Ndarray (common_type (concat rows)) [length rows; c] (concat rows))
      else Raise (ValueError Broadcast)
  | _ => Raise TypeError
  end.

Definition array_truth (a : ndarray expr) : result bool :=
  match flat a with
  | [x] => Ok (truth x)
  | _ => Raise (ValueError AmbiguousTruthValue)
  end.

#[global] Instance numpy : Numpy expr := {|
  s_add := add;
  s_mul := mul;
  s_of_Z := Num;
  s_dtype := dtype_of;
  s_truth := truth;
  s_1 := Num 1;
  s_1j := Imag;
  np_array := array;
  nd_truth := array_truth;
  py_add := binary Add;
  py_mul := binary Mul;
  py_matmul := binary MatMul;
  np_exp := unary Exp;
  nd_iadd_columns := λ _ _ _, Raise (ValueError Broadcast)
|}.

(** A sources collaborator: the phase delays at [locations] are the term
    [T], and with derivatives the tuple [(T, DT)]. *)
Definition sources : SourcePlacement expr := {|
  phase_delay_matrix := λ locations wavelength compute_derivatives,
    if compute_derivatives
    then Ok (PyTuple [scalar (Var "T"); scalar (Var "DT")])
    else Ok (scalar (Var "T"))
|}.

(** Run a computation on the heap [h] and keep its result. *)
Definition run {A} (m : M expr A) (h : heap expr) : result A := (m h).1.
End Symbolic.

(** * Properties *)

(** ** Running computations on the heap *)

Section heap_lemmas.
Context `{Numpy F}.

Lemma bind_run {A B} (m : M F A) (f : A → M F B) (h : heap F) :
  (m ≫= f) h =
  match m h with
  | (Ok a, h') => f a h'
  | (Raise e, h') => (Raise e, h')
  | (Stuck, h') => (Stuck, h')
  end.
Proof. reflexivity. Qed.

Lemma ret_run {A} (a : A) (h : heap F) : (mret a : M F A) h = (Ok a, h).
Proof. reflexivity. Qed.

Lemma get_object_run (a : addr) (o : instance F) (h : heap F) :
  objects h !! a = Some o → get_object a h = (Ok o, h).
Proof. intros Ho. unfold get_object. by rewrite Ho. Qed.

Lemma get_dict_run (a : addr) (d : pdict F) (h : heap F) :
  dicts h !! a = Some d → get_dict a h = (Ok d, h).
Proof. intros Hd. unfold get_dict. by rewrite Hd. Qed.

Lemma lookup_snoc {A} (l : list A) (x : A) : (l ++ [x]) !! length l = Some x.
Proof. by rewrite lookup_app_r, Nat.sub_diag by lia. Qed.

Lemma lookup_snoc2 {A} (l : list A) (x y : A) : (l ++ [x; y]) !! S (length l) = Some y.
Proof.
  rewrite lookup_app_r by lia.
  by replace (S (length l) - length l)%nat with 1%nat by lia.
Qed.

Lemma insert_snoc {A} (l : list A) (x y : A) : <[length l := y]> (l ++ [x]) = l ++ [y].
Proof. rewrite insert_app_r_alt by lia. by rewrite Nat.sub_diag. Qed.

(** [h'] keeps every dictionary and every instance of [h] where it was. *)
Definition extends (h h' : heap F) : Prop :=
  (∀ a d, dicts h !! a = Some d → dicts h' !! a = Some d) ∧
  (∀ a o, objects h !! a = Some o → objects h' !! a = Some o).

Lemma extends_app (h : heap F) ds os ws :
  extends h (Heap (dicts h ++ ds) (objects h ++ os) ws).
Proof. split; simpl; intros; by apply lookup_app_l_Some. Qed.

(** A validation never gets stuck: it follows no reference. *)
Lemma validate_item_not_stuck (kv : string * pyobj F) : ArrayDesign.validate_item kv ≠ Stuck.
Proof.
  destruct kv as [k v]. unfold ArrayDesign.validate_item.
  destruct (negb (bool_decide _)); [done|].
  destruct v as [a| | | | |]; simpl; try done.
  - destruct (shape a); simpl; [done|]. by destruct (negb _).
  - by destruct (negb _).
Qed.

Lemma validate_not_stuck (d : pdict F) : for_each ArrayDesign.validate_item d ≠ Stuck.
Proof.
  induction d as [|kv d IH]; simpl; [done|].
  pose proof (validate_item_not_stuck kv) as Hkv.
  destruct (ArrayDesign.validate_item kv); simpl; done.
Qed.

Lemma validate_run (a : addr) (d : pdict F) (h : heap F) :
  dicts h !! a = Some d →
  ArrayDesign._validate_perturbations a h = (for_each ArrayDesign.validate_item d, h).
Proof.
  intros Hd. unfold ArrayDesign._validate_perturbations.
  by rewrite bind_run, (get_dict_run _ _ _ Hd).
Qed.
End heap_lemmas.

(** ** Dictionaries *)

Section dict_lemmas.
Context {F : Type}.
Implicit Types (d old new : pdict F) (k : string) (v : pyobj F).

Lemma dict_get_set d k v k' :
  dict_get (dict_set d k v) k' = if decide (k = k') then Some v else dict_get d k'.
Proof.
  induction d as [|[k0 v0] d IH]; simpl.
  - by repeat case_decide.
  - destruct (decide (k0 = k)) as [->|Hne]; simpl.
    + by repeat case_decide.
    + rewrite IH. repeat case_decide; congruence.
Qed.

Lemma dict_get_None d k : k ∉ dict_keys d → dict_get d k = None.
Proof.
  induction d as [|[k0 v0] d IH]; simpl; [done|].
  rewrite not_elem_of_cons. intros [Hne Hk]. case_decide; [congruence|]. by apply IH.
Qed.

(** In [{**old, **new}] the entries of [new] win. *)
Lemma dict_get_merge old new k :
  NoDup (dict_keys new) →
  dict_get (dict_merge old new) k =
  match dict_get new k with Some v => Some v | None => dict_get old k end.
Proof.
  unfold dict_merge. revert old.
  induction new as [|[k1 v1] new IH]; intros old Hnd; simpl; [done|].
  apply NoDup_cons in Hnd as [Hk1 Hnd].
  rewrite IH by done. rewrite dict_get_set.
  destruct (decide (k1 = k)) as [->|Hne]; [|done].
  by rewrite (dict_get_None new k Hk1).
Qed.
End dict_lemmas.

(** ** Copies of a design *)

Section copies.
Context `{Numpy F}.
Implicit Types (o : instance F) (h : heap F) (old new : pdict F).

(** What [get_perturbation_free_copy] stores: the attributes of [o] with the
    new name and with a new attribute [_perturbation] that refers to [e]. *)
Definition free_copy_of o (e : addr) (new_name : option string) : instance F :=
  with_name (default (_name o) new_name) (with_perturbation e o).

Lemma get_perturbation_free_copy_run self new_name o h :
  objects h !! self = Some o →
  ArrayDesign.get_perturbation_free_copy self new_name h =
  (Ok (length (objects h)),
   Heap (dicts h ++ [[]])
        (objects h ++ [free_copy_of o (length (dicts h)) new_name]) (warnings h)).
Proof.
  intros Ho. unfold ArrayDesign.get_perturbation_free_copy.
  rewrite bind_run, (get_object_run _ _ _ Ho).
  unfold mbind, M_bind, new_object, new_dict, setattr, mret, M_ret; simpl.
  rewrite lookup_snoc; simpl. rewrite insert_snoc, lookup_snoc; simpl.
  by rewrite insert_snoc.
Qed.

(** The heap and the result of [get_perturbed_copy]: the copy and two new
    dictionaries are allocated, and the copy is given the merged dictionary
    only when the validation passes. *)
Lemma get_perturbed_copy_run self p new_name o old new h :
  objects h !! self = Some o →
  dicts h !! _perturbations o = Some old →
  dicts h !! p = Some new →
  let e := length (dicts h) in
  let merged := dict_merge old new in
  let copy := free_copy_of o e new_name in
  ArrayDesign.get_perturbed_copy self p new_name h =
  match for_each ArrayDesign.validate_item merged with
  | Ok _ => (Ok (length (objects h)),
             Heap (dicts h ++ [[]; merged])
                  (objects h ++ [with_perturbations (S e) copy]) (warnings h))
  | Raise x => (Raise x, Heap (dicts h ++ [[]; merged]) (objects h ++ [copy]) (warnings h))
  | Stuck => (Stuck, Heap (dicts h ++ [[]; merged]) (objects h ++ [copy]) (warnings h))
  end.
Proof.
  intros Ho Hold Hnew e merged copy. unfold ArrayDesign.get_perturbed_copy.
  rewrite bind_run, (get_perturbation_free_copy_run _ _ _ _ Ho).
  rewrite bind_run, (get_object_run _ copy) by apply lookup_snoc.
  rewrite bind_run, (get_dict_run _ old) by (simpl; by apply lookup_app_l_Some).
  rewrite bind_run, (get_dict_run _ new) by (simpl; by apply lookup_app_l_Some).
  rewrite bind_run. unfold new_dict at 1. simpl dicts. simpl objects. simpl warnings.
  rewrite bind_run, (validate_run _ merged) by apply lookup_snoc.
  rewrite <- (assoc_L (++)). simpl app.
  destruct (for_each ArrayDesign.validate_item merged) as [[]|x|]; try done.
  rewrite bind_run. unfold setattr. simpl objects. rewrite lookup_snoc.
  simpl. rewrite insert_snoc, length_app. simpl length.
  by replace (length (dicts h) + 1)%nat with (S e) by (subst e; lia).
Qed.
End copies.

(** What a caller sees of the design at [self]: its perturbations, its name
    and its nominal locations. *)
Definition receiver_view `{Numpy F} (self : addr) (h : heap F)
    : result (pdict F) * result string * result (ndarray F) :=
  ((ArrayDesign.perturbations self h).1,
   (ArrayDesign.name self h).1,
   (ArrayDesign.element_locations self h).1).

(** Concrete designs on the symbolic NumPy, for running the code. *)
Module Scenario.
Import Symbolic.

Definition gain : pyobj expr := PyTuple [scalar (Var "g"); PyBool true].
Definition phase : pyobj expr := PyTuple [scalar (Var "p"); PyBool false].
Definition coupling : pyobj expr := PyTuple [scalar (Var "C"); PyBool true].

(** The locations [[0], [1]] of a two-element linear array. *)
Definition two_elements : ndarray expr := Ndarray Int64 [2; 1]%nat [Num 0; Num 1].

Definition design (perturbations : addr) : instance expr :=
  MkInstance two_elements "pair" perturbations None None None None None.

(** A heap with the default dictionary, the dictionaries
    [{'gain_errors': gain}], [{'phase_errors': phase}] and
    [{'timing_errors': gain}], and at address 0 a design with gain errors. *)
Definition h_gain : heap expr :=
  Heap [[]; [("gain_errors", gain)]; [("phase_errors", phase)]; [("timing_errors", gain)]]
       [design 1%nat] [].

(** Dictionaries whose values are no pairs: a tuple of three elements, a tuple
    of one element, a list of two elements, and [None]. *)
Definition h_malformed : heap expr :=
  Heap [[];
        [("gain_errors", PyTuple [scalar (Var "g"); PyBool true; PyNone])];
        [("gain_errors", PyTuple [scalar (Var "g")])];
        [("gain_errors", PyList [scalar (Var "g"); PyBool true])];
        [("gain_errors", PyNone)]]
       [] [].








(** A design with all three kinds of perturbation of the steering matrix;
    the dictionary has them in another order than the code applies them. *)
Definition h_all : heap expr :=
  Heap [[]; [("mutual_coupling", coupling); ("phase_errors", phase); ("gain_errors", gain)]]
       [design 1%nat] [].

(** A matrix with two rows and no column, as [np.zeros((2, 0))] gives. *)
Definition no_columns : ndarray expr := Ndarray Float64 [2; 0]%nat [].
End Scenario.

Section copy_claims.
Context `{Numpy F}.
Implicit Types (o : instance F) (h : heap F) (old new : pdict F).

Lemma receiver_view_run self o d h :
  objects h !! self = Some o →
  dicts h !! _perturbations o = Some d →
  receiver_view self h = (Ok d, Ok (_name o), Ok (_locations o)).
Proof.
  intros Ho Hd. unfold receiver_view, ArrayDesign.perturbations, ArrayDesign.name,
    ArrayDesign.element_locations.
  by rewrite !bind_run, !(get_object_run _ _ _ Ho), (get_dict_run _ _ _ Hd).
Qed.

Lemma is_perturbed_run self o d h :
  objects h !! self = Some o →
  dicts h !! _perturbations o = Some d →
  ArrayDesign.is_perturbed self h = (Ok (0 <? length d)%nat, h).
Proof.
  intros Ho Hd. unfold ArrayDesign.is_perturbed.
  rewrite bind_run, (get_object_run _ _ _ Ho).
  by rewrite bind_run, (get_dict_run _ _ _ Hd).
Qed.

(** C3: the copy made by [get_perturbation_free_copy] is not free of
    perturbations.  The method assigns the empty dictionary to a new attribute
    [_perturbation]; the attribute [_perturbations] of the copy still refers
    to the dictionary of the receiver, so the copy is perturbed exactly when
    the receiver is.  Its name is the receiver's unless one is given. *)
Theorem C3_free_copy_keeps_perturbations self new_name o old h :
  objects h !! self = Some o →
  dicts h !! _perturbations o = Some old →
  ∃ design h',
    ArrayDesign.get_perturbation_free_copy self new_name h = (Ok design, h') ∧
    receiver_view design h' = (Ok old, Ok (default (_name o) new_name), Ok (_locations o)) ∧
    ArrayDesign.is_perturbed design h' = (Ok (0 <? length old)%nat, h') ∧
    ArrayDesign.is_perturbed self h = (Ok (0 <? length old)%nat, h).
Proof.
  intros Ho Hold. eexists _, _.
  split; [by apply get_perturbation_free_copy_run|].
  assert ((dicts h ++ [[]]) !! _perturbations o = Some old) as Hd
    by (by apply lookup_app_l_Some).
  split; [|split].
  - by rewrite (receiver_view_run _ (free_copy_of o (length (dicts h)) new_name) old)
      by (simpl; auto using lookup_snoc).
  - apply is_perturbed_run with (o := free_copy_of o (length (dicts h)) new_name);
      simpl; auto using lookup_snoc.
  - by apply is_perturbed_run with (o := o).
Qed.

(** C6: [get_perturbed_copy] returns a new design whose perturbations are the
    receiver's overridden and extended by the new entries (a new entry wins
    on a key that both have), after the merged dictionary has passed
    [_validate_perturbations]; its name is the receiver's unless a new one is
    given, its locations are the receiver's, and the receiver is left as it
    was. *)
Theorem C6_get_perturbed_copy_merges self p new_name o old new h :
  objects h !! self = Some o →
  dicts h !! _perturbations o = Some old →
  dicts h !! p = Some new →
  NoDup (dict_keys new) →
  let merged := dict_merge old new in
  let design := length (objects h) in
  ∃ h',
    match for_each ArrayDesign.validate_item merged with
    | Ok _ =>
        ArrayDesign.get_perturbed_copy self p new_name h = (Ok design, h') ∧
        design ≠ self ∧
        receiver_view design h' =
          (Ok merged, Ok (default (_name o) new_name), Ok (_locations o))
    | Raise x => ArrayDesign.get_perturbed_copy self p new_name h = (Raise x, h')
    | Stuck => False
    end ∧
    (∀ k, dict_get merged k =
          match dict_get new k with Some v => Some v | None => dict_get old k end) ∧
    extends h h' ∧
    objects h' !! self = Some o ∧
    receiver_view self h = (Ok old, Ok (_name o), Ok (_locations o)) ∧
    receiver_view self h' = receiver_view self h.
Proof.
  intros Ho Hold Hnew Hnd merged design.
  pose proof (get_perturbed_copy_run self p new_name o old new h Ho Hold Hnew) as Hrun.
  pose proof (validate_not_stuck (dict_merge old new)) as Hns.
  pose proof (lookup_lt_Some _ _ _ Ho) as Hlt.
  simpl in Hrun. fold merged in Hrun, Hns.
  assert (∀ os, (objects h ++ os) !! self = Some o) as Hself
    by (intros os; by apply lookup_app_l_Some).
  assert (∀ ds, (dicts h ++ ds) !! _perturbations o = Some old) as Hdict
    by (intros ds; by apply lookup_app_l_Some).
  assert (∀ k, dict_get merged k =
               match dict_get new k with Some v => Some v | None => dict_get old k end)
    as Hmerge by (intros k; by apply dict_get_merge).
  rewrite (receiver_view_run self o old h Ho Hold).
  destruct (for_each ArrayDesign.validate_item merged) as [[]|x|]; [| |done].
  - eexists. split; [split; [exact Hrun|split]|].
    + subst design. lia.
    + rewrite (receiver_view_run _
        (with_perturbations (S (length (dicts h)))
           (free_copy_of o (length (dicts h)) new_name)) merged); [done| |].
      * apply lookup_snoc.
      * apply lookup_snoc2.
    + split; [done|]. split; [apply extends_app|]. split; [apply Hself|].
      split; [done|]. apply receiver_view_run; simpl; auto.
  - eexists. split; [exact Hrun|].
    split; [done|]. split; [apply extends_app|]. split; [apply Hself|].
    split; [done|]. apply receiver_view_run; simpl; auto.
Qed.
(** C10: when [get_perturbed_copy] raises, it raises what the validation of
    the merged dictionary raises and returns no design; the receiver keeps
    its perturbations, its name and its locations, every dictionary and
    instance that existed before the call is where and what it was, and the
    only instance the call has left behind still refers to the dictionary of
    the receiver, never to the merged one. *)
Theorem C10_get_perturbed_copy_atomic self p new_name o old new h x :
  objects h !! self = Some o →
  dicts h !! _perturbations o = Some old →
  dicts h !! p = Some new →
  (ArrayDesign.get_perturbed_copy self p new_name h).1 = Raise x →
  let h' := (ArrayDesign.get_perturbed_copy self p new_name h).2 in
  for_each ArrayDesign.validate_item (dict_merge old new) = Raise x ∧
  receiver_view self h = (Ok old, Ok (_name o), Ok (_locations o)) ∧
  receiver_view self h' = receiver_view self h ∧
  objects h' !! self = Some o ∧
  extends h h' ∧
  (∀ a o', objects h' !! a = Some o' →
           objects h !! a = Some o' ∨ _perturbations o' = _perturbations o).
Proof.
  intros Ho Hold Hnew. 
  rewrite (get_perturbed_copy_run self p new_name o old new h Ho Hold Hnew).
  rewrite (receiver_view_run self o old h Ho Hold).
  destruct (for_each ArrayDesign.validate_item (dict_merge old new)) as [[]|y|];
    simpl; intros Hx; [done| |done].
  injection Hx as ->.
  split; [done|]. split; [done|]. split.
  { apply receiver_view_run; simpl; by apply lookup_app_l_Some. }
  split; [by apply lookup_app_l_Some|]. split; [apply extends_app|].
  intros a o' [Ha|[_ Ha]]%lookup_app_Some; [by left|right].
  apply list_lookup_singleton_Some in Ha as [_ <-]. done.
Qed.
End copy_claims.

(** The design of [Scenario.h_gain] has gain errors, and so has its
    perturbation-free copy. *)
Lemma C3_failing_input :
  ∃ design h',
    ArrayDesign.get_perturbation_free_copy 0%nat None Scenario.h_gain = (Ok design, h') ∧
    ArrayDesign.is_perturbed 0%nat Scenario.h_gain = (Ok true, Scenario.h_gain) ∧
    ArrayDesign.is_perturbed design h' = (Ok true, h').
Proof.
  destruct (C3_free_copy_keeps_perturbations 0%nat None (Scenario.design 1)
              [("gain_errors", Scenario.gain)] Scenario.h_gain eq_refl eq_refl)
    as (design & h' & Hcopy & _ & Hcopy_perturbed & Hself_perturbed).
  exists design, h'. split; [exact Hcopy|]. split; assumption.
Defined.

(** Phase errors are added to the design with gain errors: the copy has both,
    the receiver has what it had. *)
Lemma C6_witness :
  ∃ h',
    ArrayDesign.get_perturbed_copy 0%nat 2%nat None Scenario.h_gain = (Ok 1%nat, h') ∧
    receiver_view 1%nat h' =
      (Ok [("gain_errors", Scenario.gain); ("phase_errors", Scenario.phase)],
       Ok "pair", Ok Scenario.two_elements) ∧
    receiver_view 0%nat h' = receiver_view 0%nat Scenario.h_gain.
Proof.
  destruct (C6_get_perturbed_copy_merges 0%nat 2%nat None (Scenario.design 1)
              [("gain_errors", Scenario.gain)] [("phase_errors", Scenario.phase)]
              Scenario.h_gain eq_refl eq_refl eq_refl (NoDup_singleton _))
    as (h' & (Hrun & _ & Hcopy) & _ & _ & _ & _ & Hself).
  exists h'. split; [exact Hrun|]. split; [exact Hcopy|exact Hself].
Defined.

(** An entry of an unknown kind makes [get_perturbed_copy] raise. *)
Lemma C10_witness :
  (ArrayDesign.get_perturbed_copy 0%nat 3%nat None Scenario.h_gain).1 =
    Raise (ValueError (UnsupportedPerturbationType "timing_errors")) ∧
  receiver_view 0%nat (ArrayDesign.get_perturbed_copy 0%nat 3%nat None Scenario.h_gain).2 =
    receiver_view 0%nat Scenario.h_gain.
Proof.
  assert ((ArrayDesign.get_perturbed_copy 0%nat 3%nat None Scenario.h_gain).1 =
          Raise (ValueError (UnsupportedPerturbationType "timing_errors"))) as Hraise
    by reflexivity.
  split; [exact Hraise|].
  exact (proj1 (proj2 (proj2
    (C10_get_perturbed_copy_atomic 0%nat 3%nat None (Scenario.design 1)
       [("gain_errors", Scenario.gain)] [("timing_errors", Scenario.gain)]
       Scenario.h_gain _ eq_refl eq_refl eq_refl Hraise)))).
Defined.

(** ** Construction *)

Section construction.
Context `{Numpy F}.
Implicit Types (o : instance F) (h : heap F) (a : ndarray F) (d : pdict F).

(** The locations that [__init__] stores for the array [a], or what it
    raises. *)
Definition normalized a : result (ndarray F) :=
  if (2 <? nd_ndim a)%nat then Raise (ValueError ExpectingVectorOrMatrix)
  else if (nd_ndim a =? 1)%nat then Ok (reshape_column a)
  else c ← shape_at a 1;
       if (3 <? c)%nat then Raise (ValueError ArrayOnly1D2D3D) else Ok a.

Lemma init_run locations a name p d h :
  ArrayDesign.as_ndarray locations = Ok a →
  dicts h !! p = Some d →
  ArrayDesign.__init__ locations name p h =
  (stored ← normalized a;
   for_each ArrayDesign.validate_item d;;
   Ok (MkInstance stored name p None None None None None), h).
Proof.
  intros Ha Hd. unfold ArrayDesign.__init__, normalized.
  rewrite bind_run. unfold lift at 1. rewrite Ha.
  destruct (2 <? nd_ndim a)%nat; [done|].
  rewrite bind_run.
  destruct (nd_ndim a =? 1)%nat.
  - unfold mret at 1, M_ret. rewrite bind_run, (validate_run _ _ _ Hd).
    by destruct (for_each ArrayDesign.validate_item d) as [[]| |].
  - rewrite bind_run. unfold lift at 1.
    destruct (shape_at a 1) as [c| |]; [|done..].
    simpl. destruct (3 <? c)%nat; [done|].
    unfold mret at 1, M_ret. rewrite bind_run, (validate_run _ _ _ Hd).
    by destruct (for_each ArrayDesign.validate_item d) as [[]| |].
Qed.

Lemma new_run locations a name perturbations d h :
  ArrayDesign.as_ndarray locations = Ok a →
  dicts h !! default default_perturbations perturbations = Some d →
  ArrayDesign.new locations name perturbations h =
  match stored ← normalized a; for_each ArrayDesign.validate_item d;; Ok stored with
  | Ok stored =>
      (Ok (length (objects h)),
       Heap (dicts h)
            (objects h ++ [MkInstance stored name
                             (default default_perturbations perturbations)
                             None None None None None])
            (warnings h))
  | Raise e => (Raise e, h)
  | Stuck => (Stuck, h)
  end.
Proof.
  intros Ha Hd. unfold ArrayDesign.new.
  rewrite bind_run, (init_run _ _ _ _ _ _ Ha Hd).
  destruct (normalized a) as [stored| |]; [|done..]. simpl.
  by destruct (for_each ArrayDesign.validate_item d) as [[]| |].
Qed.

Lemma ndim_run self o h :
  objects h !! self = Some o →
  ArrayDesign.ndim self h =
  (if (nd_ndim (_locations o) =? 1)%nat then Ok 1%nat else shape_at (_locations o) 1, h).
Proof.
  intros Ho. unfold ArrayDesign.ndim.
  rewrite bind_run, (get_object_run _ _ _ Ho).
  by destruct (nd_ndim (_locations o) =? 1)%nat.
Qed.

(** What [__init__] does hold of the geometry: more than two axes and more
    than three columns are refused as [InvalidGeometry], a vector is stored
    as one column, and what is stored has two axes and at most three columns. *)
Lemma normalized_geometry a :
  ((2 < nd_ndim a)%nat →
     normalized a = Raise (ValueError ExpectingVectorOrMatrix) ∧
     taxonomy (ValueError ExpectingVectorOrMatrix) = Some InvalidGeometry) ∧
  (∀ m c, shape a = [m; c] → (3 < c)%nat →
     normalized a = Raise (ValueError ArrayOnly1D2D3D) ∧
     taxonomy (ValueError ArrayOnly1D2D3D) = Some InvalidGeometry) ∧
  (∀ m, shape a = [m] →
     normalized a = Ok (Ndarray (nd_dtype a) [length (flat a); 1%nat] (flat a))) ∧
  (∀ stored, normalized a = Ok stored →
     ∃ m c, shape stored = [m; c] ∧ (c ≤ 3)%nat ∧ flat stored = flat a ∧
            nd_dtype stored = nd_dtype a).
Proof.
  unfold normalized, nd_ndim, shape_at. split; [|split; [|split]].
  - intros Hlt. by apply Nat.ltb_lt in Hlt as ->.
  - intros m c Hsh Hc. rewrite Hsh. simpl. by apply Nat.ltb_lt in Hc as ->.
  - intros m Hm. by rewrite Hm.
  - intros stored. destruct (shape a) as [|m [|c [|? ?]]] eqn:Hsh; simpl; try done.
    + intros [= <-]. exists (length (flat a)), 1%nat. simpl. split; [done|]. split; [lia|done].
    + destruct (3 <? c)%nat eqn:Hc; [done|]. intros [= <-].
      apply Nat.ltb_ge in Hc. by exists m, c.
Qed.

(** C9: [__init__] refuses more than two axes and more than three columns,
    stores a vector as one column, and stores two axes and at most three
    columns, with [ndim] the number of columns.  A matrix with no column at
    all passes the test [shape[1] > 3] too: it is stored, and [ndim] is 0. *)
Theorem C9_construction_geometry locations a name perturbations d h :
  ArrayDesign.as_ndarray locations = Ok a →
  dicts h !! default default_perturbations perturbations = Some d →
  ((2 < nd_ndim a)%nat →
     ArrayDesign.new locations name perturbations h =
       (Raise (ValueError ExpectingVectorOrMatrix), h)) ∧
  (∀ m c, shape a = [m; c] → (3 < c)%nat →
     ArrayDesign.new locations name perturbations h =
       (Raise (ValueError ArrayOnly1D2D3D), h)) ∧
  (∀ self h', ArrayDesign.new locations name perturbations h = (Ok self, h') →
     ∃ m c, ArrayDesign.element_locations self h' =
              (Ok (Ndarray (nd_dtype a) [m; c] (flat a)), h') ∧
            (c ≤ 3)%nat ∧
            ArrayDesign.ndim self h' = (Ok c, h') ∧
            (nd_ndim a = 1%nat → m = length (flat a) ∧ c = 1%nat)) ∧
  (∀ m, shape a = [m; 0%nat] → for_each ArrayDesign.validate_item d = Ok () →
     ∃ self h', ArrayDesign.new locations name perturbations h = (Ok self, h') ∧
                ArrayDesign.element_locations self h' = (Ok a, h') ∧
                ArrayDesign.ndim self h' = (Ok 0%nat, h')).
Proof.
  intros Ha Hd. rewrite (new_run _ _ _ _ _ _ Ha Hd).
  destruct (normalized_geometry a) as (Haxes & Hcols & Hvec & Hstored).
  split; [|split; [|split]].
  - intros Hlt. by rewrite (proj1 (Haxes Hlt)).
  - intros m c Hsh Hc. by rewrite (proj1 (Hcols m c Hsh Hc)).
  - intros self h'.
    destruct (normalized a) as [stored| |] eqn:Hn; simpl; [|done..].
    destruct (for_each ArrayDesign.validate_item d) as [[]| |]; simpl; [|done..].
    intros [= <- <-].
    destruct (Hstored stored eq_refl) as (m & c & Hsh & Hc & Hflat & Htype).
    exists m, c.
    set (o := MkInstance stored name (default default_perturbations perturbations)
                None None None None None).
    assert ((objects h ++ [o]) !! length (objects h) = Some o) as Ho by apply lookup_snoc.
    split; [|split; [done|split]].
    + unfold ArrayDesign.element_locations.
      rewrite bind_run, (get_object_run _ o) by done.
      destruct stored as [t sh fl]. simpl in *. by subst.
    + rewrite (ndim_run _ o) by done. unfold shape_at, nd_ndim. simpl. rewrite Hsh.
      simpl. done.
    + intros H1. unfold normalized in Hn. rewrite H1 in Hn. simpl in Hn.
      injection Hn as <-. simpl in Hsh. by injection Hsh as <- <-.
  - intros m Hsh Hvalid.
    assert (normalized a = Ok a) as ->.
    { unfold normalized, nd_ndim, shape_at. by rewrite Hsh. }
    simpl. rewrite Hvalid. simpl. eexists _, _. split; [done|].
    set (o := MkInstance a name (default default_perturbations perturbations)
                None None None None None).
    assert ((objects h ++ [o]) !! length (objects h) = Some o) as Ho by apply lookup_snoc.
    split.
    + unfold ArrayDesign.element_locations.
      by rewrite bind_run, (get_object_run _ o) by done.
    + rewrite (ndim_run _ o) by done. unfold shape_at, nd_ndim. simpl. by rewrite Hsh.
Qed.

End construction.

(** C8: what [_validate_perturbations] does with an entry.  The key must be
    one of the four kinds.  The value is looked at only when it is no tuple:
    then its length must be 2.  A tuple of any length passes, and so does a
    list of two elements; a value without a length raises [TypeError].
    So a design is constructed from [{'gain_errors': (g, True, None)}], and
    [{'gain_errors': None}] is refused with a [TypeError]. *)
Theorem C8_validation_accepts_any_tuple `{Numpy F} (k : string) (items : list (pyobj F)) :
  ArrayDesign.validate_item (k, PyTuple items) =
    (if bool_decide (k ∈ PERTURBATION_TYPES) then Ok ()
     else Raise (ValueError (UnsupportedPerturbationType k))) ∧
  ArrayDesign.validate_item (k, PyList items) =
    (if bool_decide (k ∈ PERTURBATION_TYPES)
     then if (length items =? 2)%nat then Ok () else Raise (ValueError TwoElementTuple)
     else Raise (ValueError (UnsupportedPerturbationType k))) ∧
  ArrayDesign.validate_item (k, @PyNone F) =
    (if bool_decide (k ∈ PERTURBATION_TYPES) then Raise TypeError
     else Raise (ValueError (UnsupportedPerturbationType k))) ∧
  taxonomy (ValueError (UnsupportedPerturbationType k)) = Some InvalidPerturbation ∧
  taxonomy (ValueError TwoElementTuple) = Some InvalidPerturbation ∧
  taxonomy TypeError = None ∧
  (ArrayDesign.new (PyNdarray Scenario.two_elements) "pair" (Some 1%nat)
     Scenario.h_malformed).1 = Ok 0%nat ∧
  (ArrayDesign.new (PyNdarray Scenario.two_elements) "pair" (Some 4%nat)
     Scenario.h_malformed).1 = Raise TypeError.
Proof.
  cbn [ArrayDesign.validate_item isinstance_tuple py_len negb].
  destruct (bool_decide (k ∈ PERTURBATION_TYPES)); simpl; [|done].
  by destruct (length items =? 2)%nat.
Qed.

(** A matrix with two rows and no column is stored as it is. *)
Lemma C9_failing_input :
  ∃ self h',
    ArrayDesign.new (PyNdarray Scenario.no_columns) "empty" None heap0 = (Ok self, h') ∧
    ArrayDesign.element_locations self h' = (Ok Scenario.no_columns, h') ∧
    ArrayDesign.ndim self h' = (Ok 0%nat, h').
Proof.
  exact (proj2 (proj2 (proj2
    (C9_construction_geometry (PyNdarray Scenario.no_columns) Scenario.no_columns
       "empty" None [] heap0 eq_refl eq_refl))) 2%nat eq_refl eq_refl).
Defined.

(** ** Grid-based designs *)

Section grid.
Context `{Numpy F}.
Implicit Types (o : instance F) (h : heap F) (d : pdict F).

(** The instance that a grid-based constructor builds from a column of
    indices. *)
Definition grid_instance (l : list Z) (d0 : F) (name : string) (kwargs : option addr)
    (pair : option (Z * Z)) (mode : option string) : instance F :=
  MkInstance (scale_indices (column l) d0) name (default default_perturbations kwargs)
    None (Some (column l)) (Some d0) pair mode.

Lemma grid_init_run (l : list Z) (d0 : F) name kwargs d h :
  dicts h !! default default_perturbations kwargs = Some d →
  GridBasedArrayDesign.__init__ (column l) d0 name kwargs h =
  (for_each ArrayDesign.validate_item d;;
   Ok (grid_instance l d0 name kwargs None None), h).
Proof.
  intros Hd. unfold GridBasedArrayDesign.__init__.
  rewrite bind_run.
  rewrite (init_run _ (scale_indices (column l) d0) _ _ d) by done.
  unfold normalized, nd_ndim, shape_at. simpl.
  by destruct (for_each ArrayDesign.validate_item d) as [[]| |].
Qed.

Lemma length_arange (a b : Z) : length (arange a b) = Z.to_nat (b - a).
Proof. unfold arange. by rewrite length_fmap, length_seq. Qed.

Lemma elem_of_arange (a b x : Z) : x ∈ arange a b ↔ a ≤ x < b.
Proof.
  unfold arange. rewrite list_elem_of_fmap. split.
  - intros (i & -> & Hi). apply elem_of_seq in Hi. lia.
  - intros Hx. exists (Z.to_nat (x - a)). split; [lia|]. apply elem_of_seq. lia.
Qed.


Lemma length_indices_m (m n : Z) :
  Z.of_nat (length (CoPrimeArray.indices_m m n)) = (Z.max 0 n + Z.max 0 (m - 1))%Z.
Proof.
  unfold CoPrimeArray.indices_m. rewrite length_app, !length_fmap, !length_arange. lia.
Qed.

(** The indices [CoPrimeArray.__init__] computes for the pair [(m, n)] and
    the lowered mode, as unbounded integers. *)
Definition coprime_indices (m n : Z) (mode : string) : result (list Z) :=
  if decide (mode = "2m") then Ok (CoPrimeArray.indices_2m m n)
  else if decide (mode = "m") then Ok (CoPrimeArray.indices_m m n)
  else Raise (ValueError (UnknownMode mode)).

Definition coprime_name (m n : Z) (name : option string) : string :=
  default ("Co-prime (" +:+ pretty m +:+ "," +:+ pretty n +:+ ")") name.

(** The heap after the test [m > n]: a warning is recorded when it holds. *)
Definition after_swap (m n : Z) h : heap F :=
  if (n <? m)%Z then Heap (dicts h) (objects h) (warnings h ++ ["m > n. Swapped."]) else h.

Lemma coprime_new_run (m n : Z) (d0 : F) mode name kwargs d h :
  dicts h !! default default_perturbations kwargs = Some d →
  let m' := Z.min m n in
  let n' := Z.max m n in
  let h1 := after_swap m n h in
  let md := lower (default "2m" mode) in
  CoPrimeArray.new m n d0 mode name kwargs h =
  if negb (Z.gcd m n =? 1)%Z then (Raise (ValueError (NotCoPrime m' n')), h1)
  else match idx ← coprime_indices m' n' md;
             for_each ArrayDesign.validate_item d;; Ok idx with
       | Ok idx =>
           (Ok (length (objects h)),
            Heap (dicts h1)
                 (objects h ++ [grid_instance idx d0 (coprime_name m n name) kwargs
                                  (Some (m', n')) (Some md)])
                 (warnings h1))
       | Raise e => (Raise e, h1)
       | Stuck => (Stuck, h1)
       end.
Proof.
  intros Hd m' n' h1 md.
  assert (dicts h1 !! default default_perturbations kwargs = Some d) as Hd1.
  { subst h1. unfold after_swap. by destruct (n <? m)%Z. }
  assert (objects h1 = objects h) as Hobj.
  { subst h1. unfold after_swap. by destruct (n <? m)%Z. }
  assert (∀ k : Z * Z → M F (instance F),
            ((if (n <? m)%Z then warn "m > n. Swapped.";; mret (n, m) else mret (m, n))
               ≫= k) h = k (m', n') h1) as Hswap.
  { intros k. subst m' n' h1. unfold after_swap.
    destruct (n <? m)%Z eqn:Hlt.
    - apply Z.ltb_lt in Hlt. by rewrite Z.min_r, Z.max_l by lia.
    - apply Z.ltb_ge in Hlt. by rewrite Z.min_l, Z.max_r by lia. }
  unfold CoPrimeArray.new, CoPrimeArray.__init__.
  rewrite bind_run, Hswap. fold md. fold (coprime_name m n name).
  assert (Z.gcd m' n' = Z.gcd m n) as ->.
  { subst m' n'. destruct (Z.ltb_spec n m).
    - rewrite Z.min_r, Z.max_l by lia. apply Z.gcd_comm.
    - by rewrite Z.min_l, Z.max_r by lia. }
  destruct (negb (Z.gcd m n =? 1)%Z); [done|].
  unfold coprime_indices.
  destruct (decide (md = "2m")) as [H2m|_]; [|destruct (decide (md = "m")) as [Hm|_]].
  - rewrite (bind_run (mret _)), ret_run. cbv beta iota.
    change (reshape_column (vector (CoPrimeArray.indices_2m m' n')))
      with (column (CoPrimeArray.indices_2m m' n')).
    rewrite bind_run, (grid_init_run _ _ _ _ d) by done.
    destruct (for_each ArrayDesign.validate_item d) as [[]| |]; simpl; [|done..].
    unfold new_object. by rewrite Hobj.
  - rewrite (bind_run (mret _)), ret_run. cbv beta iota.
    change (reshape_column (vector (CoPrimeArray.indices_m m' n')))
      with (column (CoPrimeArray.indices_m m' n')).
    rewrite bind_run, (grid_init_run _ _ _ _ d) by done.
    destruct (for_each ArrayDesign.validate_item d) as [[]| |]; simpl; [|done..].
    unfold new_object. by rewrite Hobj.
  - done.
Qed.
End grid.

Section catalog_claims.
Context `{Numpy F}.
Implicit Types (h : heap F) (d : pdict F).




(** Every row of the table of presets but the last can be asked for: row
    [n] has [n] indices. *)
Lemma preset_row (n : Z) :
  1 ≤ n ≤ 20 →
  ∃ row, MinimumRedundancyLinearArray.preset (n - 1) = Ok row ∧ Z.of_nat (length row) = n.
Proof.
  intros Hn. unfold MinimumRedundancyLinearArray.preset.
  assert (∃ i, Z.to_nat (n - 1) = i ∧ (i < 20)%nat ∧ n = Z.of_nat i + 1)
    as (i & -> & Hi & ->) by (eexists; split; [done|lia]).
  do 20 (destruct i as [|i]; [eexists; split; [reflexivity|simpl; lia]|]). lia.
Qed.

(** C5: [MinimumRedundancyLinearArray] takes the row [n - 1] of the table of
    20 presets for [n] from 1 to 19 and raises [InvalidArgument] for every
    other [n]: the test [n >= len(_MRLA_PRESETS)] refuses [n = 20], whose
    row is in the table. *)
Theorem C5_mrla_range (n : Z) (d0 : F) name kwargs d h :
  dicts h !! default default_perturbations kwargs = Some d →
  for_each ArrayDesign.validate_item d = Ok () →
  length _MRLA_PRESETS = 20%nat ∧
  (1 ≤ n ≤ 19 →
     ∃ row, _MRLA_PRESETS !! Z.to_nat (n - 1) = Some row ∧
            Z.of_nat (length row) = n ∧
            MinimumRedundancyLinearArray.new n d0 name kwargs h =
              (Ok (length (objects h)),
               Heap (dicts h)
                    (objects h ++ [grid_instance row d0 (default ("MRLA " +:+ pretty n) name)
                                     kwargs None None])
                    (warnings h))) ∧
  (n < 1 ∨ 20 ≤ n →
     MinimumRedundancyLinearArray.new n d0 name kwargs h = (Raise (ValueError MRLAPresets), h) ∧
     taxonomy (ValueError MRLAPresets) = Some InvalidArgument).
Proof.
  intros Hd Hvalid. split; [done|]. split.
  - intros Hn. destruct (preset_row n) as (row & Hrow & Hlen); [lia|].
    exists row. split; [|split; [done|]].
    { unfold MinimumRedundancyLinearArray.preset in Hrow.
      by destruct (_MRLA_PRESETS !! Z.to_nat (n - 1)) as [r|]; simplify_eq. }
    unfold MinimumRedundancyLinearArray.new, MinimumRedundancyLinearArray.__init__.
    assert ((n <? 1) || (n >=? Z.of_nat (length _MRLA_PRESETS)) = false) as ->.
    { rewrite Z.geb_leb. simpl length.
      apply orb_false_intro; [apply Z.ltb_ge|apply Z.leb_gt]; lia. }
    rewrite !bind_run. unfold lift at 1. rewrite Hrow.
    rewrite (grid_init_run _ _ _ _ d) by done. by rewrite Hvalid.
  - intros Hn. split; [|done].
    unfold MinimumRedundancyLinearArray.new, MinimumRedundancyLinearArray.__init__.
    assert ((n <? 1) || (n >=? Z.of_nat (length _MRLA_PRESETS)) = true) as ->.
    { rewrite Z.geb_leb. simpl length. apply orb_true_iff.
      destruct Hn; [left; apply Z.ltb_lt|right; apply Z.leb_le]; lia. }
    done.
Qed.
End catalog_claims.



(** [MinimumRedundancyLinearArray(20, 1)] is refused;
    [MinimumRedundancyLinearArray(3, 1)] has the indices [0, 1, 3] and the
    locations [[0], [1], [3]]. *)
Lemma C5_failing_input :
  MinimumRedundancyLinearArray.new 20 (Symbolic.Num 1) None None heap0 =
    (Raise (ValueError MRLAPresets), heap0) ∧
  _MRLA_PRESETS !! 19%nat =
    Some [0; 1; 10; 22; 34; 46; 58; 70; 82; 94; 106; 108; 110; 112; 114; 117; 119;
          121; 123; 125] ∧
  MinimumRedundancyLinearArray.new 3 (Symbolic.Num 1) None None heap0 =
    (Ok 0%nat,
     Heap [[]]
          [MkInstance
             (Ndarray Int64 [3; 1]%nat [Symbolic.Num 0; Symbolic.Num 1; Symbolic.Num 3])
             "MRLA 3" 0%nat None (Some (Ndarray Int64 [3; 1]%nat [0; 1; 3]))
             (Some (Symbolic.Num 1)) None None]
          []).
Proof.
  pose proof (C5_mrla_range 20 (Symbolic.Num 1) None None [] heap0 eq_refl eq_refl)
    as (_ & _ & Hrefused).
  split; [apply Hrefused; lia|]. split; reflexivity.
Defined.

(** ** Element locations *)

Section rows.
Context {A : Type}.


End rows.

Section locations.
Context `{Numpy F}.
Implicit Types (o : instance F) (h : heap F) (a b : ndarray F).






End locations.



(** ** The steering matrix *)

Section steering.
Context `{Numpy F}.
Implicit Types (o : instance F) (h : heap F) (pd : pdict F) (T A : pyobj F).

(** Step 1 of the specification: the element locations the phase delays are
    computed at. *)
Definition effective_locations (self : addr) pd : M F (ndarray F) :=
  match dict_get pd "location_errors" with
  | Some v => p ← lift (py_getitem v 0); ArrayDesign._compute_actual_locations self p
  | None => o ← get_object self; mret (_locations o)
  end.

(** The specification of steps 3 to 7 is written on NumPy's operators and
    on indexing alone: it shares no definition with the embedding of the
    method.  [exp(i * x)]: *)
Definition exp_i (x : pyobj F) : result (pyobj F) :=
  py_mul (PyNumber s_1j) x ≫= np_exp.

(** Step 2: what the collaborator returned.  Without derivatives [T] is the
    phase delay; with derivatives the phase delay is [T[0]] and the
    derivative terms are [T[k]] for [k] from 1 to [len(T) - 1]. *)
Definition phase_delay (compute_derivatives : bool) T : result (pyobj F) :=
  if compute_derivatives then py_getitem T 0 else Ok T.

Definition derivative_terms (compute_derivatives : bool) T : result (list (pyobj F)) :=
  if compute_derivatives
  then n ← py_len T; comprehension (py_getitem T) (seq 1 (n - 1))
  else Ok [].

(** [DA_k = A * (i * derivative_term_k)] *)
Definition derivative A (X : pyobj F) : result (pyobj F) :=
  py_mul (PyNumber s_1j) X ≫= py_mul A.

(** Step 3: the base steering matrix [A = exp(i * phase_delay)], followed by
    the derivatives [DA_k = A * (i * derivative_term_k)] when they are asked
    for. *)
Definition base_matrices (compute_derivatives : bool) T : result (list (pyobj F)) :=
  T0 ← phase_delay compute_derivatives T;
  A ← exp_i T0;
  terms ← derivative_terms compute_derivatives T;
  DA ← comprehension (derivative A) terms;
  Ok (A :: DA).

(** Steps 4 to 6: a perturbation kind, the coefficient made of its
    parameters, and the operator that applies the coefficient to a matrix. *)
Record stage := Stage {
  stage_key : string;
  stage_coeff : pyobj F → result (pyobj F);
  stage_op : pyobj F → pyobj F → result (pyobj F)
}.

Definition gain_stage : stage := Stage "gain_errors" (py_add (PyNumber s_1)) py_mul.
Definition phase_stage : stage := Stage "phase_errors" exp_i py_mul.
Definition coupling_stage : stage := Stage "mutual_coupling" Ok py_matmul.

(** The order of the specification: gain, then phase, then coupling. *)
Definition stages : list stage := [gain_stage; phase_stage; coupling_stage].

(** A stage does nothing when its kind has no entry in the filtered set;
    otherwise it applies the same coefficient to [A] and to every [DA_k]. *)
Definition run_stage pd (st : stage) (ms : list (pyobj F)) : result (list (pyobj F)) :=
  match dict_get pd (stage_key st) with
  | Some v =>
      params ← py_getitem v 0;
      coeff ← stage_coeff st params;
      comprehension (stage_op st coeff) ms
  | None => Ok ms
  end.

(** Step 7: [A] alone, or [(A, DA_1, DA_2, ...)]. *)
Definition output (compute_derivatives : bool) (ms : list (pyobj F)) : pyobj F :=
  match ms with
  | A :: DA => if compute_derivatives then PyTuple (A :: DA) else A
  | [] => PyTuple []
  end.

(** The specification of [steering_matrix], after the locations: steps 3 to
    7 on the filtered set [pd] and the phase-delay terms [T]. *)
Definition steering_spec pd (compute_derivatives : bool) T : result (pyobj F) :=
  ms ← foldl (λ acc st, acc ≫= run_stage pd st) (base_matrices compute_derivatives T) stages;
  Ok (output compute_derivatives ms).

Lemma lift_bind_run {X Y : Type} (r : result X) (f : X → M F Y) h :
  (lift r ≫= f) h =
  match r with Ok a => f a h | Raise e => (Raise e, h) | Stuck => (Stuck, h) end.
Proof. by destruct r. Qed.

(** One statement [if k in perturb_dict: ...] of the code is one stage. *)
Lemma apply_coeff_stage (op : pyobj F → pyobj F → result (pyobj F))
    (compute_derivatives : bool) (coeff A : pyobj F) (DA : list (pyobj F))
    {Y : Type} (k : pyobj F * list (pyobj F) → result Y) (k' : list (pyobj F) → result Y) :
  (compute_derivatives = false → DA = []) →
  (∀ A1 DA1, (compute_derivatives = false → DA1 = []) → k (A1, DA1) = k' (A1 :: DA1)) →
  ArrayDesign.apply_coeff op compute_derivatives coeff A DA ≫= k =
  comprehension (op coeff) (A :: DA) ≫= k'.
Proof.
  intros HDA Hk. unfold ArrayDesign.apply_coeff. simpl.
  destruct (op coeff A) as [A1| |]; simpl; [|done..].
  destruct compute_derivatives.
  - destruct (comprehension (op coeff) DA) as [DA1| |]; simpl; [|done..].
    by apply Hk.
  - rewrite (HDA eq_refl). simpl. by apply Hk.
Qed.
(** The code after the call of the collaborator, as it is written: [A] and
    [DA] are a pair, and each statement [if k in perturb_dict: ...] changes
    the pair. *)
Definition base_pair (compute_derivatives : bool) T
    : result (pyobj F * list (pyobj F)) :=
  if compute_derivatives
  then T0 ← py_getitem T 0;
       A ← ArrayDesign.exp_1j T0;
       Ts ← py_tail T;
       DA ← comprehension (λ X, Y ← py_mul (PyNumber s_1j) X; py_mul A Y) Ts;
       Ok (A, DA)
  else A ← ArrayDesign.exp_1j T; Ok (A, []).

Definition pair_stage pd (compute_derivatives : bool) (st : stage)
    (s : pyobj F * list (pyobj F)) : result (pyobj F * list (pyobj F)) :=
  match dict_get pd (stage_key st) with
  | Some v =>
      params ← py_getitem v 0;
      coeff ← stage_coeff st params;
      ArrayDesign.apply_coeff (stage_op st) compute_derivatives coeff s.1 s.2
  | None => Ok s
  end.

Definition code_tail pd (compute_derivatives : bool) T : result (pyobj F) :=
  s0 ← base_pair compute_derivatives T;
  s1 ← pair_stage pd compute_derivatives gain_stage s0;
  s2 ← pair_stage pd compute_derivatives phase_stage s1;
  s3 ← pair_stage pd compute_derivatives coupling_stage s2;
  Ok (if compute_derivatives then PyTuple (s3.1 :: s3.2) else s3.1).

Lemma lift_stage pd (compute_derivatives : bool) (st : stage) (s : pyobj F * list (pyobj F))
    {Y : Type} (f : pyobj F * list (pyobj F) → M F Y)
    (g : pyobj F * list (pyobj F) → result Y) h :
  (∀ s', f s' h = lift (g s') h) →
  (lift (pair_stage pd compute_derivatives st s) ≫= f) h =
  lift (pair_stage pd compute_derivatives st s ≫= g) h.
Proof.
  intros Hfg. rewrite lift_bind_run.
  destruct (pair_stage pd compute_derivatives st s); simpl; auto.
Qed.

Lemma steering_matrix_tail self sources wavelength compute_derivatives perturbations h :
  ArrayDesign.steering_matrix self sources wavelength compute_derivatives perturbations h =
  (pd ← ArrayDesign.filter_perturbations self perturbations;
   locations ← effective_locations self pd;
   T ← lift (phase_delay_matrix sources locations wavelength compute_derivatives);
   lift (code_tail pd compute_derivatives T)) h.
Proof.
  unfold ArrayDesign.steering_matrix. rewrite !bind_run.
  destruct (ArrayDesign.filter_perturbations self perturbations h) as [[pd| |] h1]; [|done..].
  rewrite !bind_run. fold (effective_locations self pd).
  destruct (effective_locations self pd h1) as [[locations| |] h2]; [|done..].
  rewrite !lift_bind_run.
  destruct (phase_delay_matrix sources locations wavelength compute_derivatives)
    as [T| |]; [|done..].
  unfold code_tail. fold (base_pair compute_derivatives T).
  rewrite lift_bind_run.
  destruct (base_pair compute_derivatives T) as [[A DA]| |]; [|done..].
  refine (lift_stage pd compute_derivatives gain_stage (A, DA) _ _ h2 _).
  intros [A0 DA0].
  refine (lift_stage pd compute_derivatives phase_stage (A0, DA0) _ _ h2 _).
  intros [A1 DA1].
  refine (lift_stage pd compute_derivatives coupling_stage (A1, DA1) _ _ h2 _).
  by intros [A2 DA2].
Qed.

Lemma result_bind_assoc {X Y Z' : Type} (r : result X) (f : X → result Y)
    (g : Y → result Z') :
  (r ≫= f) ≫= g = r ≫= λ x, f x ≫= g.
Proof. by destruct r. Qed.

(** [np.exp(1j * x)] of the code is [exp(i * x)]. *)
Lemma exp_1j_exp_i (x : pyobj F) : ArrayDesign.exp_1j x = exp_i x.
Proof. reflexivity. Qed.

Lemma comprehension_fmap {X Y Z' : Type} (f : X → result Y) (g : Y → Z') (l : list X) :
  comprehension (λ x, fmap (M := result) g (f x)) l =
  fmap (M := result) (fmap (M := list) g) (comprehension f l).
Proof.
  induction l as [|x l IH]; [done|]. simpl. rewrite IH.
  destruct (f x) as [y| |]; simpl; [|done..].
  by destruct (comprehension f l).
Qed.

(** Reading the items of a sequence one by one from [s] on gives the items
    from [s] on. *)
Lemma comprehension_lookup {X : Type} (items : list X) (n s : nat) :
  (s + n)%nat = length items →
  comprehension (λ k, match items !! k with Some x => Ok x | None => Raise IndexError end)
    (seq s n) = Ok (drop s items).
Proof.
  revert s. induction n as [|n IH]; intros s Hlen; simpl.
  - by rewrite drop_ge by lia.
  - destruct (items !! s) as [x|] eqn:Hx.
    + simpl. rewrite IH by lia. simpl. by rewrite (drop_S items x s).
    + apply lookup_ge_None in Hx. lia.
Qed.

(** The loop [for X in T[1:]] of the code runs over the derivative terms. *)
Lemma derivative_terms_tail T T0 :
  py_getitem T 0 = Ok T0 → derivative_terms true T = py_tail T.
Proof.
  unfold derivative_terms.
  destruct T as [a| | | |items|items]; simpl; try done.
  - unfold nd_getitem, nd_tail. destruct (shape a) as [|n sh]; [done|]. intros _. simpl.
    apply (comprehension_fmap (λ k, match _ with [] => _ | _ :: _ => _ end)).
  - destruct items as [|x items]; [done|]. intros _. simpl.
    rewrite Nat.sub_0_r. apply (comprehension_lookup (x :: items)). simpl. lia.
  - destruct items as [|x items]; [done|]. intros _. simpl.
    rewrite Nat.sub_0_r. apply (comprehension_lookup (x :: items)). simpl. lia.
Qed.

Lemma base_pair_matrices (compute_derivatives : bool) T {Y : Type}
    (k : pyobj F * list (pyobj F) → result Y) (k' : list (pyobj F) → result Y) :
  (∀ A1 DA1, (compute_derivatives = false → DA1 = []) → k (A1, DA1) = k' (A1 :: DA1)) →
  base_pair compute_derivatives T ≫= k = base_matrices compute_derivatives T ≫= k'.
Proof.
  intros Hk. unfold base_pair, base_matrices, phase_delay. destruct compute_derivatives.
  - destruct (py_getitem T 0) as [T0| |] eqn:HT0; [|done..].
    cbn [mbind result_bind]. rewrite exp_1j_exp_i.
    destruct (exp_i T0) as [A| |]; [|done..].
    cbn [mbind result_bind]. rewrite (derivative_terms_tail T T0 HT0).
    destruct (py_tail T) as [Ts| |]; simpl; [|done..].
    change (λ X, Y ← py_mul (PyNumber s_1j) X; py_mul A Y) with (derivative A).
    destruct (comprehension (derivative A) Ts) as [DA| |]; simpl; [|done..].
    by apply Hk.
  - cbn [mbind result_bind]. rewrite exp_1j_exp_i.
    destruct (exp_i T) as [A| |]; simpl; [|done..].
    by apply Hk.
Qed.

Lemma pair_stage_run_stage pd (compute_derivatives : bool) (st : stage) A
    (DA : list (pyobj F)) {Y : Type}
    (k : pyobj F * list (pyobj F) → result Y) (k' : list (pyobj F) → result Y) :
  (compute_derivatives = false → DA = []) →
  (∀ A1 DA1, (compute_derivatives = false → DA1 = []) → k (A1, DA1) = k' (A1 :: DA1)) →
  pair_stage pd compute_derivatives st (A, DA) ≫= k = run_stage pd st (A :: DA) ≫= k'.
Proof.
  intros HDA Hk. unfold pair_stage, run_stage.
  destruct (dict_get pd (stage_key st)) as [v|]; [|by apply Hk].
  destruct (py_getitem v 0) as [params| |]; [|done..].
  change (Ok params ≫= ?f) with (f params). cbv beta.
  destruct (stage_coeff st params) as [coeff| |]; [|done..].
  change (Ok coeff ≫= ?f) with (f coeff). cbv beta.
  by apply apply_coeff_stage.
Qed.

(** The code after the call of the collaborator does what the specification
    says. *)
Lemma code_tail_spec pd (compute_derivatives : bool) T :
  code_tail pd compute_derivatives T = steering_spec pd compute_derivatives T.
Proof.
  unfold code_tail, steering_spec, stages. simpl foldl.
  rewrite !result_bind_assoc.
  apply base_pair_matrices. intros A0 DA0 H0.
  apply pair_stage_run_stage; [done|]. intros A1 DA1 H1.
  apply pair_stage_run_stage; [done|]. intros A2 DA2 H2.
  apply pair_stage_run_stage; [done|]. by intros A3 DA3 H3.
Qed.

(** C1: [steering_matrix] filters the perturbations, takes the phase delays
    at the effective locations from the collaborator, and then does what the
    specification says, [steering_spec], which is written without any
    definition of the method: the base matrix [exp(i * T)] and, when asked
    for, one derivative [A * (i * DT_k)] for each term after the first; then,
    for each kind that has an entry in the filtered set, the gain coefficient
    [1 + params] applied by [*], then the phase coefficient [exp(i * params)]
    applied by [*], then the coupling matrix applied by [@] from the left,
    each to [A] and to every [DA_k]; the result is [A] or [(A, DA_1, ...)].
    Written out on the operators: without perturbations and derivatives the
    result is [np.exp(1j * T)]; and for a tuple [(T0, DT_1, ...)] with all
    three kinds in the filtered set it is the tuple of [C @ (phase_coeff *
    (gain_coeff * X))] for [X] in [A, A * (1j * DT_1), ...]. *)
Theorem C1_steering_matrix_order self sources wavelength (compute_derivatives : bool)
    perturbations h :
  ArrayDesign.steering_matrix self sources wavelength compute_derivatives perturbations h =
  (pd ← ArrayDesign.filter_perturbations self perturbations;
   locations ← effective_locations self pd;
   T ← lift (phase_delay_matrix sources locations wavelength compute_derivatives);
   lift (steering_spec pd compute_derivatives T)) h ∧
  (∀ T, steering_spec [] false T = (iT ← py_mul (PyNumber s_1j) T; np_exp iT)) ∧
  (∀ pd T0 DT vg vp vc g p C,
     dict_get pd "gain_errors" = Some vg → py_getitem vg 0 = Ok g →
     dict_get pd "phase_errors" = Some vp → py_getitem vp 0 = Ok p →
     dict_get pd "mutual_coupling" = Some vc → py_getitem vc 0 = Ok C →
     steering_spec pd true (PyTuple (T0 :: DT)) =
     (iT ← py_mul (PyNumber s_1j) T0;
      A ← np_exp iT;
      DA ← comprehension (λ X, iX ← py_mul (PyNumber s_1j) X; py_mul A iX) DT;
      gain_coeff ← py_add (PyNumber s_1) g;
      gained ← comprehension (py_mul gain_coeff) (A :: DA);
      ip ← py_mul (PyNumber s_1j) p;
      phase_coeff ← np_exp ip;
      phased ← comprehension (py_mul phase_coeff) gained;
      coupled ← comprehension (py_matmul C) phased;
      Ok (PyTuple coupled))).
Proof.
  split; [|split].
  - rewrite steering_matrix_tail, !bind_run.
    destruct (ArrayDesign.filter_perturbations self perturbations h) as [[pd| |] h1];
      [|done..].
    rewrite !bind_run.
    destruct (effective_locations self pd h1) as [[locations| |] h2]; [|done..].
    rewrite !lift_bind_run.
    destruct (phase_delay_matrix sources locations wavelength compute_derivatives)
      as [T| |]; [|done..].
    by rewrite code_tail_spec.
  - intros T. unfold steering_spec, stages. simpl foldl. unfold run_stage. simpl.
    unfold base_matrices, phase_delay, derivative_terms, exp_i. simpl.
    destruct (py_mul (PyNumber s_1j) T) as [iT| |]; simpl; [|done..].
    by destruct (np_exp iT).
  - intros pd T0 DT vg vp vc g p C Hvg Hg Hvp Hp Hvc HC.
    assert (derivative_terms true (PyTuple (T0 :: DT)) = Ok DT) as Hterms.
    { unfold derivative_terms. simpl. rewrite Nat.sub_0_r.
      apply (comprehension_lookup (T0 :: DT)). simpl. lia. }
    unfold steering_spec, stages. cbn [foldl]. unfold run_stage.
    unfold gain_stage, phase_stage, coupling_stage. cbn [stage_key stage_coeff stage_op].
    rewrite Hvg, Hvp, Hvc, Hg, Hp, HC.
    unfold base_matrices, phase_delay, exp_i. cbn [py_getitem lookup list_lookup].
    cbn [mbind result_bind].
    destruct (py_mul (PyNumber s_1j) T0) as [iT| |]; cbn [mbind result_bind]; [|done..].
    destruct (np_exp iT) as [A| |]; cbn [mbind result_bind]; [|done..].
    rewrite Hterms. cbn [mbind result_bind].
    change (derivative A) with (λ X, iX ← py_mul (PyNumber s_1j) X; py_mul A iX).
    destruct (comprehension _ DT) as [DA| |]; cbn [mbind result_bind]; [|done..].
    simpl.
    destruct (py_add (PyNumber s_1) g) as [gain_coeff| |]; simpl; [|done..].
    destruct (py_mul gain_coeff A) as [A1| |]; simpl; [|done..].
    destruct (comprehension (py_mul gain_coeff) DA) as [DA1| |]; simpl; [|done..].
    destruct (py_mul (PyNumber s_1j) p) as [ip| |]; simpl; [|done..].
    destruct (np_exp ip) as [phase_coeff| |]; simpl; [|done..].
    destruct (py_mul phase_coeff A1) as [A2| |]; simpl; [|done..].
    destruct (comprehension (py_mul phase_coeff) DA1) as [DA2| |]; simpl; [|done..].
    destruct (py_matmul C A2) as [A3| |]; simpl; [|done..].
    by destruct (comprehension (py_matmul C) DA2) as [DA3| |].
Qed.

(** An entry is selected by ['known'] when the truth value of its flag is
    [True]. *)
Definition is_known (v : pyobj F) : bool :=
  match ArrayDesign.known_flag v with Ok true => true | _ => false end.

Lemma known_flag_pair (params : pyobj F) (b : bool) :
  ArrayDesign.known_flag (PyTuple [params; PyBool b]) = Ok b.
Proof. reflexivity. Qed.

Lemma known_items_filter pd :
  Forall (λ kv, ∃ b, ArrayDesign.known_flag kv.2 = Ok b) pd →
  ArrayDesign.known_items pd = Ok (List.filter (λ kv, is_known kv.2) pd).
Proof.
  induction 1 as [|[k v] pd [b Hb] _ IH]; [done|].
  simpl in *. unfold is_known. rewrite Hb, IH. simpl. by destruct b.
Qed.

Lemma steering_spec_unperturbed (compute_derivatives : bool) T :
  steering_spec [] compute_derivatives T =
  ms ← base_matrices compute_derivatives T; Ok (output compute_derivatives ms).
Proof.
  unfold steering_spec. simpl foldl.
  by destruct (base_matrices compute_derivatives T).
Qed.

(** C2: the argument [perturbations] of [steering_matrix].  ['all'] selects
    the stored dictionary; ['known'] selects the entries whose flag is true,
    in their order; ['none'] selects nothing, and the steering matrix is then
    the base matrix at the nominal locations whatever is stored; any other
    value makes the call raise [InvalidArgument]. *)
Theorem C2_perturbation_filter self o dct sources wavelength (compute_derivatives : bool)
    (perturbations : string) h :
  objects h !! self = Some o →
  dicts h !! _perturbations o = Some dct →
  ArrayDesign.filter_perturbations self "all" h = (Ok dct, h) ∧
  (Forall (λ kv, ∃ b, ArrayDesign.known_flag kv.2 = Ok b) dct →
     ArrayDesign.filter_perturbations self "known" h =
       (Ok (List.filter (λ kv, is_known kv.2) dct), h)) ∧
  ArrayDesign.filter_perturbations self "none" h = (Ok [], h) ∧
  ArrayDesign.steering_matrix self sources wavelength compute_derivatives "none" h =
    (T ← phase_delay_matrix sources (_locations o) wavelength compute_derivatives;
     ms ← base_matrices compute_derivatives T;
     Ok (output compute_derivatives ms), h) ∧
  (perturbations ∉ ["all"; "known"; "none"] →
     ArrayDesign.filter_perturbations self perturbations h =
       (Raise (ValueError PerturbationFilter), h) ∧
     ArrayDesign.steering_matrix self sources wavelength compute_derivatives perturbations h =
       (Raise (ValueError PerturbationFilter), h) ∧
     taxonomy (ValueError PerturbationFilter) = Some InvalidArgument).
Proof.
  intros Ho Hd.
  assert (ArrayDesign.filter_perturbations self "none" h = (Ok [], h)) as Hnone by done.
  split; [|split; [|split; [done|split]]].
  - unfold ArrayDesign.filter_perturbations. simpl.
    by rewrite bind_run, (get_object_run _ _ _ Ho), (get_dict_run _ _ _ Hd).
  - intros Hflags. unfold ArrayDesign.filter_perturbations. simpl.
    rewrite bind_run, (get_object_run _ _ _ Ho).
    rewrite bind_run, (get_dict_run _ _ _ Hd).
    unfold lift. by rewrite known_items_filter.
  - rewrite steering_matrix_tail, bind_run, Hnone.
    unfold effective_locations. simpl dict_get.
    rewrite !bind_run, (get_object_run _ _ _ Ho), ret_run, lift_bind_run.
    destruct (phase_delay_matrix sources (_locations o) wavelength compute_derivatives)
      as [T| |]; [|done..].
    unfold lift. by rewrite code_tail_spec, steering_spec_unperturbed.
  - intros Hother.
    assert (ArrayDesign.filter_perturbations self perturbations h =
            (Raise (ValueError PerturbationFilter), h)) as Hraise.
    { rewrite !not_elem_of_cons in Hother. destruct Hother as (Hall & Hknown & Hno & _).
      unfold ArrayDesign.filter_perturbations. by repeat (case_decide; [done|]). }
    split; [done|]. split; [|done].
    by rewrite steering_matrix_tail, bind_run, Hraise.
Qed.

End steering.

(** With ['all'] the design of [Scenario.h_all] gets its gain, then its phase,
    then its coupling, on the matrix and on the derivative, whatever the
    order of the entries in its dictionary. *)
Example steering_matrix_all :
  Symbolic.run (ArrayDesign.steering_matrix 0%nat Symbolic.sources (PyNumber (Symbolic.Num 1))
                  true "all") Scenario.h_all =
  Ok (PyTuple
        [Symbolic.scalar
           (Symbolic.MatMul (Symbolic.Var "C")
              (Symbolic.Mul (Symbolic.Exp (Symbolic.Mul Symbolic.Imag (Symbolic.Var "p")))
                 (Symbolic.Mul (Symbolic.Add (Symbolic.Num 1) (Symbolic.Var "g"))
                    (Symbolic.Exp (Symbolic.Mul Symbolic.Imag (Symbolic.Var "T"))))));
         Symbolic.scalar
           (Symbolic.MatMul (Symbolic.Var "C")
              (Symbolic.Mul (Symbolic.Exp (Symbolic.Mul Symbolic.Imag (Symbolic.Var "p")))
                 (Symbolic.Mul (Symbolic.Add (Symbolic.Num 1) (Symbolic.Var "g"))
                    (Symbolic.Mul
                       (Symbolic.Exp (Symbolic.Mul Symbolic.Imag (Symbolic.Var "T")))
                       (Symbolic.Mul Symbolic.Imag (Symbolic.Var "DT"))))))]).
Proof. reflexivity. Qed.

(** The phase errors of [Scenario.h_all] are not known: with ['known'] the
    gain and the coupling are applied, and with ['none'] nothing is. *)
Lemma C2_witness :
  ArrayDesign.filter_perturbations 0%nat "known" Scenario.h_all =
    (Ok [("mutual_coupling", Scenario.coupling); ("gain_errors", Scenario.gain)],
     Scenario.h_all) ∧
  Symbolic.run (ArrayDesign.steering_matrix 0%nat Symbolic.sources (PyNumber (Symbolic.Num 1))
                  false "none") Scenario.h_all =
    Ok (Symbolic.scalar (Symbolic.Exp (Symbolic.Mul Symbolic.Imag (Symbolic.Var "T")))) ∧
  ArrayDesign.steering_matrix 0%nat Symbolic.sources (PyNumber (Symbolic.Num 1))
    false "some" Scenario.h_all = (Raise (ValueError PerturbationFilter), Scenario.h_all).
Proof.
  destruct (C2_perturbation_filter 0%nat (Scenario.design 1)
              [("mutual_coupling", Scenario.coupling); ("phase_errors", Scenario.phase);
               ("gain_errors", Scenario.gain)]
              Symbolic.sources (PyNumber (Symbolic.Num 1)) false "some" Scenario.h_all
              eq_refl eq_refl)
    as (_ & Hknown & _ & Hnone & Hother).
  split; [|split].
  - apply Hknown. repeat constructor; by eexists.
  - unfold Symbolic.run. by rewrite Hnone.
  - apply Hother. rewrite !not_elem_of_cons.
    repeat split; [discriminate..|apply not_elem_of_nil].
Defined.

(** The order of the stages is observable: the coupling applied before the
    gain gives another matrix than the gain applied before the coupling. *)
Example stage_order_matters :
  let pd := [("mutual_coupling", Scenario.coupling); ("gain_errors", Scenario.gain)] in
  let A := Symbolic.scalar (Symbolic.Var "A") in
  run_stage pd gain_stage [A] ≫= run_stage pd coupling_stage ≠
  run_stage pd coupling_stage [A] ≫= run_stage pd gain_stage.
Proof. discriminate. Qed.

(** * Further properties of the code *)

(** ** Reading a design *)

Section readers.
Context `{Numpy F}.
Implicit Types (o : instance F) (h : heap F) (old new : pdict F).

(** A computation that leaves the heap as it found it, whatever it returns
    or raises. *)
Definition reads {X : Type} (m : M F X) : Prop := ∀ h, (m h).2 = h.

Lemma reads_ret {X : Type} (x : X) : reads (mret x : M F X).
Proof. by intros h. Qed.

Lemma reads_lift {X : Type} (r : result X) : reads (lift r : M F X).
Proof. by intros h. Qed.

Lemma reads_get_object (a : addr) : reads (get_object a : M F (instance F)).
Proof. by intros h. Qed.

Lemma reads_get_dict (a : addr) : reads (get_dict a : M F (pdict F)).
Proof. by intros h. Qed.

Lemma reads_bind {X Y : Type} (m : M F X) (f : X → M F Y) :
  reads m → (∀ x, reads (f x)) → reads (m ≫= f).
Proof.
  intros Hm Hf h. rewrite bind_run. specialize (Hm h).
  destruct (m h) as [[x| |] h1]; simpl in *; subst; [apply Hf|done..].
Qed.

Lemma reads_ndim (self : addr) : reads (ArrayDesign.ndim self).
Proof.
  apply reads_bind; [apply reads_get_object|]. intros o.
  destruct (nd_ndim (_locations o) =? 1)%nat; [apply reads_ret|apply reads_lift].
Qed.

Lemma reads_compute_actual_locations (self : addr) (p : pyobj F) :
  reads (ArrayDesign._compute_actual_locations self p).
Proof.
  apply reads_bind; [apply reads_ndim|]. intros n.
  apply reads_bind; [apply reads_lift|]. intros c.
  apply reads_bind; [apply reads_get_object|]. intros o.
  destruct p; try apply reads_lift. destruct (c <=? n)%nat; apply reads_lift.
Qed.

Lemma reads_filter_perturbations (self : addr) (perturbations : string) :
  reads (ArrayDesign.filter_perturbations self perturbations).
Proof.
  unfold ArrayDesign.filter_perturbations. repeat case_decide.
  - apply reads_bind; [apply reads_get_object|]. intros o. apply reads_get_dict.
  - apply reads_bind; [apply reads_get_object|]. intros o.
    apply reads_bind; [apply reads_get_dict|]. intros d. apply reads_lift.
  - apply reads_ret.
  - apply reads_lift.
Qed.

Lemma reads_effective_locations (self : addr) (pd : pdict F) :
  reads (effective_locations self pd).
Proof.
  unfold effective_locations. destruct (dict_get pd "location_errors") as [v|].
  - apply reads_bind; [apply reads_lift|]. intros x.
    apply reads_compute_actual_locations.
  - apply reads_bind; [apply reads_get_object|]. intros o. apply reads_ret.
Qed.

(** [steering_matrix] and the properties of a design only read: whatever
    they return or raise, no dictionary, no instance and no warning is added
    or changed. *)
Theorem readers_leave_heap_unchanged (self : addr) (sources : SourcePlacement F)
    (wavelength : pyobj F) (compute_derivatives : bool) (perturbations ptype : string) :
  reads (ArrayDesign.steering_matrix self sources wavelength compute_derivatives
           perturbations) ∧
  reads (ArrayDesign.actual_element_locations self) ∧
  reads (ArrayDesign.actual_ndim self) ∧
  reads (ArrayDesign.is_perturbed self) ∧
  reads (ArrayDesign.perturbations self) ∧
  reads (ArrayDesign.has_perturbation self ptype) ∧
  reads (ArrayDesign.is_perturbation_known self ptype) ∧
  reads (ArrayDesign.get_perturbation_params self ptype).
Proof.
  repeat split.
  - intros h. rewrite steering_matrix_tail. revert h.
    apply reads_bind; [apply reads_filter_perturbations|]. intros pd.
    apply reads_bind; [apply reads_effective_locations|]. intros locations.
    apply reads_bind; [apply reads_lift|]. intros T. apply reads_lift.
  - apply reads_bind; [apply reads_get_object|]. intros o.
    apply reads_bind; [apply reads_get_dict|]. intros d.
    destruct (dict_get d "location_errors") as [v|].
    + apply reads_bind; [apply reads_lift|]. intros x.
      apply reads_compute_actual_locations.
    + apply reads_bind; [apply reads_get_object|]. intros o'. apply reads_ret.
  - apply reads_bind; [apply reads_get_object|]. intros o.
    apply reads_bind; [apply reads_get_dict|]. intros d.
    destruct (dict_get d "location_errors") as [v|]; [|apply reads_ndim].
    apply reads_bind; [apply reads_lift|]. intros x.
    apply reads_bind; [apply reads_lift|]. intros c.
    apply reads_bind; [apply reads_ndim|]. intros n. apply reads_ret.
  - apply reads_bind; [apply reads_get_object|]. intros o.
    apply reads_bind; [apply reads_get_dict|]. intros d. apply reads_ret.
  - apply reads_bind; [apply reads_get_object|]. intros o. apply reads_get_dict.
  - apply reads_bind; [apply reads_get_object|]. intros o.
    apply reads_bind; [apply reads_get_dict|]. intros d. apply reads_ret.
  - apply reads_bind; [apply reads_get_object|]. intros o.
    apply reads_bind; [apply reads_get_dict|]. intros d.
    destruct (dict_get d ptype); [|apply reads_ret].
    apply reads_bind; [apply reads_lift|]. intros x. apply reads_ret.
  - apply reads_bind; [apply reads_get_object|]. intros o.
    apply reads_bind; [apply reads_get_dict|]. intros d.
    destruct (dict_get d ptype); [|apply reads_ret].
    apply reads_bind; [apply reads_lift|]. intros x. apply reads_ret.
Qed.
End readers.

(** ** Dictionaries of perturbations *)

Section more_dict_lemmas.
Context {F : Type}.
Implicit Types (d old new : pdict F) (k : string) (v : pyobj F).

Lemma dict_contains_get d k : dict_contains d k = bool_decide (is_Some (dict_get d k)).
Proof.
  unfold dict_contains. destruct (dict_get d k).
  - by rewrite bool_decide_eq_true_2.
  - rewrite bool_decide_eq_false_2; [done|]. by intros [? ?].
Qed.

Lemma dict_get_Some_key d k v : dict_get d k = Some v → k ∈ dict_keys d.
Proof.
  induction d as [|[k0 v0] d IH]; simpl; [done|].
  case_decide; [subst; intros _; apply list_elem_of_here|].
  intros Hg. apply list_elem_of_further. by apply IH.
Qed.

Lemma dict_keys_set d k v :
  dict_keys (dict_set d k v) = if decide (k ∈ dict_keys d) then dict_keys d
                               else dict_keys d ++ [k].
Proof.
  induction d as [|[k0 v0] d IH].
  - destruct (decide (k ∈ dict_keys [])) as [Hin|_]; [|done].
    by apply elem_of_nil in Hin.
  - cbn [dict_set dict_keys fmap list_fmap fst].
    destruct (decide (k0 = k)) as [->|Hne].
    + by rewrite decide_True by apply list_elem_of_here.
    + cbn [fmap list_fmap fst]. fold (dict_keys (dict_set d k v)). rewrite IH.
      fold (dict_keys d).
      destruct (decide (k ∈ dict_keys d)) as [Hin|Hnin].
      * by rewrite decide_True by (by apply list_elem_of_further).
      * rewrite decide_False; [done|]. rewrite not_elem_of_cons. by split.
Qed.

(** An assignment [d[k] = v] and a merge [{**old, **new}] never give a key
    twice, and a merge keeps the keys of [old] where they were. *)
Lemma NoDup_dict_set d k v : NoDup (dict_keys d) → NoDup (dict_keys (dict_set d k v)).
Proof.
  intros Hnd. rewrite dict_keys_set. case_decide; [done|].
  apply NoDup_app. split; [done|]. split; [|apply NoDup_singleton].
  intros x Hx ->%list_elem_of_singleton. done.
Qed.

Lemma NoDup_dict_merge old new :
  NoDup (dict_keys old) → NoDup (dict_keys (dict_merge old new)).
Proof.
  unfold dict_merge. revert old.
  induction new as [|[k v] new IH]; intros old Hnd; simpl; [done|].
  apply IH. by apply NoDup_dict_set.
Qed.

Lemma dict_keys_merge_prefix old new :
  dict_keys old `prefix_of` dict_keys (dict_merge old new).
Proof.
  unfold dict_merge. revert old.
  induction new as [|[k v] new IH]; intros old; simpl; [done|].
  etrans; [|apply IH]. rewrite dict_keys_set. case_decide; [done|].
  by apply prefix_app_r.
Qed.
End more_dict_lemmas.

Section validated.
Context `{Numpy F}.
Implicit Types (o : instance F) (h : heap F) (d old new : pdict F).

(** What [_validate_perturbations] lets through: a recognised kind, with a
    value that is a tuple or has length 2. *)
Definition entry_passes (kv : string * pyobj F) : Prop :=
  kv.1 ∈ PERTURBATION_TYPES ∧ (isinstance_tuple kv.2 = true ∨ py_len kv.2 = Ok 2%nat).

Lemma validate_item_passes (kv : string * pyobj F) :
  ArrayDesign.validate_item kv = Ok () ↔ entry_passes kv.
Proof.
  destruct kv as [k v]. unfold ArrayDesign.validate_item, entry_passes. simpl.
  destruct (decide (k ∈ PERTURBATION_TYPES)) as [Hk|Hk].
  - rewrite bool_decide_eq_true_2 by done. simpl.
    destruct (isinstance_tuple v); simpl; [by split; [split; [|left]|]|].
    destruct (py_len v) as [n| |]; simpl.
    + destruct (Nat.eqb_spec n 2) as [->|Hn]; simpl.
      * by split; [split; [|right]|].
      * split; [done|]. intros [_ [?|[= ?]]]; done.
    + split; [done|]. intros [_ [?|?]]; done.
    + split; [done|]. intros [_ [?|?]]; done.
  - rewrite bool_decide_eq_false_2 by done. simpl. split; [done|]. by intros [? _].
Qed.

Lemma validate_passes d :
  for_each ArrayDesign.validate_item d = Ok () ↔ Forall entry_passes d.
Proof.
  induction d as [|kv d IH]; simpl; [by split; [constructor|]|].
  rewrite Forall_cons, <- IH, <- validate_item_passes.
  destruct (ArrayDesign.validate_item kv) as [[]| |]; simpl.
  - by split; [split|intros [_ ?]].
  - split; [done|]. by intros [? _].
  - split; [done|]. by intros [? _].
Qed.

(** No key twice and only recognised kinds: at most four entries. *)
Lemma at_most_four_kinds d :
  NoDup (dict_keys d) → Forall entry_passes d → (length d ≤ 4)%nat.
Proof.
  intros Hnd Hd.
  assert (dict_keys d ⊆+ PERTURBATION_TYPES) as Hsub.
  { apply NoDup_submseteq; [done|]. intros k Hk.
    apply list_elem_of_fmap in Hk as ([k' v] & -> & Hin).
    rewrite Forall_forall in Hd. by destruct (Hd _ Hin). }
  apply submseteq_length in Hsub. unfold dict_keys in Hsub.
  by rewrite length_fmap in Hsub.
Qed.

(** The perturbations of every design that the constructor or
    [get_perturbed_copy] returns have passed the validation: each kind is one
    of the four, and when the dictionaries given have no key twice there are
    at most four entries.  A copy keeps the kinds of the receiver in their
    order. *)
Theorem returned_designs_are_validated locations name perturbations self p new_name o
    old new d h :
  dicts h !! default default_perturbations perturbations = Some d →
  objects h !! self = Some o →
  dicts h !! _perturbations o = Some old →
  dicts h !! p = Some new →
  (∀ a h', ArrayDesign.new locations name perturbations h = (Ok a, h') →
     (ArrayDesign.perturbations a h').1 = Ok d ∧
     Forall entry_passes d ∧
     (NoDup (dict_keys d) → (length d ≤ 4)%nat)) ∧
  (∀ a h', ArrayDesign.get_perturbed_copy self p new_name h = (Ok a, h') →
     (ArrayDesign.perturbations a h').1 = Ok (dict_merge old new) ∧
     Forall entry_passes (dict_merge old new) ∧
     dict_keys old `prefix_of` dict_keys (dict_merge old new) ∧
     (NoDup (dict_keys old) →
        NoDup (dict_keys (dict_merge old new)) ∧ (length (dict_merge old new) ≤ 4)%nat)).
Proof.
  intros Hd Ho Hold Hnew. split.
  - intros a h'. destruct (ArrayDesign.as_ndarray locations) as [arr| |] eqn:Ha.
    + rewrite (new_run _ _ _ _ _ _ Ha Hd).
      destruct (normalized arr) as [stored| |]; simpl; [|done..].
      destruct (for_each ArrayDesign.validate_item d) as [[]| |] eqn:Hv; [|done..].
      apply validate_passes in Hv. simpl. intros [= <- <-].
      split; [|split; [done|intros; by apply at_most_four_kinds]].
      unfold ArrayDesign.perturbations. rewrite bind_run.
      erewrite get_object_run by apply lookup_snoc. simpl.
      by rewrite Hd.
    + unfold ArrayDesign.new, ArrayDesign.__init__.
      rewrite !bind_run. unfold lift at 1. by rewrite Ha.
    + unfold ArrayDesign.new, ArrayDesign.__init__.
      rewrite !bind_run. unfold lift at 1. by rewrite Ha.
  - intros a h'.
    rewrite (get_perturbed_copy_run self p new_name o old new h Ho Hold Hnew).
    destruct (for_each ArrayDesign.validate_item (dict_merge old new)) as [[]| |] eqn:Hv;
      [|done..].
    apply validate_passes in Hv. intros [= <- <-].
    split; [|split; [done|split; [apply dict_keys_merge_prefix|]]].
    + unfold ArrayDesign.perturbations. rewrite bind_run.
      erewrite get_object_run by apply lookup_snoc. simpl.
      by rewrite lookup_snoc2.
    + intros Hnd. split; [by apply NoDup_dict_merge|].
      apply at_most_four_kinds; [by apply NoDup_dict_merge|done].
Qed.
End validated.

Section accessors.
Context `{Numpy F}.
Implicit Types (o : instance F) (h : heap F) (d old new : pdict F).

(** [v[i]] wrapped as the value of a subscript [d[k][i]]. *)
Definition item_of (d : pdict F) (k : string) (i : nat) : result (keyed (pyobj F)) :=
  match dict_get d k with
  | Some v => Value <$> py_getitem v i
  | None => Ok (KeyError k)
  end.

Lemma has_perturbation_run self o d k h :
  objects h !! self = Some o → dicts h !! _perturbations o = Some d →
  ArrayDesign.has_perturbation self k h = (Ok (dict_contains d k), h).
Proof.
  intros Ho Hd. unfold ArrayDesign.has_perturbation.
  rewrite bind_run, (get_object_run _ _ _ Ho).
  by rewrite bind_run, (get_dict_run _ _ _ Hd).
Qed.

Lemma get_perturbation_params_run self o d k h :
  objects h !! self = Some o → dicts h !! _perturbations o = Some d →
  ArrayDesign.get_perturbation_params self k h = (item_of d k 0, h).
Proof.
  intros Ho Hd. unfold ArrayDesign.get_perturbation_params, item_of.
  rewrite bind_run, (get_object_run _ _ _ Ho).
  rewrite bind_run, (get_dict_run _ _ _ Hd).
  destruct (dict_get d k) as [v|]; [|done].
  rewrite lift_bind_run. by destruct (py_getitem v 0).
Qed.

Lemma is_perturbation_known_run self o d k h :
  objects h !! self = Some o → dicts h !! _perturbations o = Some d →
  ArrayDesign.is_perturbation_known self k h = (item_of d k 1, h).
Proof.
  intros Ho Hd. unfold ArrayDesign.is_perturbation_known, item_of.
  rewrite bind_run, (get_object_run _ _ _ Ho).
  rewrite bind_run, (get_dict_run _ _ _ Hd).
  destruct (dict_get d k) as [v|]; [|done].
  rewrite lift_bind_run. by destruct (py_getitem v 1).
Qed.

(** The three accessors agree on what is there: [get_perturbation_params]
    and [is_perturbation_known] raise [KeyError] exactly for the kinds that
    [has_perturbation] denies, and for an entry [(params, flag)] they return
    [params] and [flag]. *)
Theorem accessors_agree self o d (k : string) h :
  objects h !! self = Some o →
  dicts h !! _perturbations o = Some d →
  ((ArrayDesign.has_perturbation self k h).1 = Ok false ↔
   (ArrayDesign.get_perturbation_params self k h).1 = Ok (KeyError k)) ∧
  ((ArrayDesign.has_perturbation self k h).1 = Ok false ↔
   (ArrayDesign.is_perturbation_known self k h).1 = Ok (KeyError k)) ∧
  (∀ params flag, dict_get d k = Some (PyTuple [params; flag]) →
     (ArrayDesign.has_perturbation self k h).1 = Ok true ∧
     (ArrayDesign.get_perturbation_params self k h).1 = Ok (Value params) ∧
     (ArrayDesign.is_perturbation_known self k h).1 = Ok (Value flag)).
Proof.
  intros Ho Hd.
  rewrite (has_perturbation_run _ _ _ _ _ Ho Hd),
    (get_perturbation_params_run _ _ _ _ _ Ho Hd),
    (is_perturbation_known_run _ _ _ _ _ Ho Hd).
  unfold item_of, dict_contains. simpl.
  destruct (dict_get d k) as [v|]; simpl.
  - split; [|split].
    + split; [done|]. by destruct (py_getitem v 0).
    + split; [done|]. by destruct (py_getitem v 1).
    + by intros params flag [= ->].
  - split; [done|]. split; [done|]. done.
Qed.

(** What a perturbed copy answers for a kind: the entry given to
    [get_perturbed_copy] when it has one, and otherwise what the receiver
    answers. *)
Theorem perturbed_copy_lookup self p new_name o old new (k : string) h design h' :
  objects h !! self = Some o →
  dicts h !! _perturbations o = Some old →
  dicts h !! p = Some new →
  NoDup (dict_keys new) →
  ArrayDesign.get_perturbed_copy self p new_name h = (Ok design, h') →
  (ArrayDesign.has_perturbation design k h').1 =
    Ok (dict_contains new k || dict_contains old k) ∧
  (ArrayDesign.get_perturbation_params design k h').1 =
    (if dict_contains new k then item_of new k 0
     else (ArrayDesign.get_perturbation_params self k h).1) ∧
  (ArrayDesign.is_perturbation_known design k h').1 =
    (if dict_contains new k then item_of new k 1
     else (ArrayDesign.is_perturbation_known self k h).1).
Proof.
  intros Ho Hold Hnew Hnd.
  rewrite (get_perturbed_copy_run self p new_name o old new h Ho Hold Hnew).
  destruct (for_each ArrayDesign.validate_item (dict_merge old new)) as [[]| |]; [|done..].
  intros [= <- <-].
  set (c := with_perturbations (S (length (dicts h)))
              (free_copy_of o (length (dicts h)) new_name)).
  set (h' := Heap _ _ _).
  assert (objects h' !! length (objects h) = Some c) as Hc by apply lookup_snoc.
  assert (dicts h' !! _perturbations c = Some (dict_merge old new)) as Hm
    by apply lookup_snoc2.
  rewrite (has_perturbation_run _ _ _ _ _ Hc Hm),
    (get_perturbation_params_run _ _ _ _ _ Hc Hm),
    (is_perturbation_known_run _ _ _ _ _ Hc Hm),
    (get_perturbation_params_run _ _ _ _ _ Ho Hold),
    (is_perturbation_known_run _ _ _ _ _ Ho Hold).
  unfold item_of, dict_contains. simpl. rewrite (dict_get_merge old new k Hnd).
  by destruct (dict_get new k), (dict_get old k).
Qed.

(** What a caller sees of the geometry of the design at [self]. *)
Definition geometry_view (self : addr) h :=
  ((ArrayDesign.element_locations self h).1,
   (ArrayDesign.size self h).1,
   (ArrayDesign.ndim self h).1,
   (GridBasedArrayDesign.d0 self h).1,
   (GridBasedArrayDesign.element_indices self h).1,
   _coprime_pair <$> objects h !! self,
   _mode <$> objects h !! self).

Lemma geometry_view_run self o h :
  objects h !! self = Some o →
  geometry_view self h =
  (Ok (_locations o), shape_at (_locations o) 0,
   (if (nd_ndim (_locations o) =? 1)%nat then Ok 1%nat else shape_at (_locations o) 1),
   Ok (_d0 o), Ok (_element_indices o), Some (_coprime_pair o), Some (_mode o)).
Proof.
  intros Ho. unfold geometry_view, ArrayDesign.element_locations, ArrayDesign.size,
    GridBasedArrayDesign.d0, GridBasedArrayDesign.element_indices.
  rewrite (ndim_run _ _ _ Ho), !bind_run, !(get_object_run _ _ _ Ho), Ho. done.
Qed.

(** A copy is the same array: [get_perturbation_free_copy] and
    [get_perturbed_copy] keep the locations, the size and the dimension and,
    for a grid-based design, the indices, the spacing, the co-prime pair and
    the mode. *)
Theorem copies_keep_the_geometry self p new_name o old new h :
  objects h !! self = Some o →
  dicts h !! _perturbations o = Some old →
  dicts h !! p = Some new →
  (∃ a h', ArrayDesign.get_perturbation_free_copy self new_name h = (Ok a, h') ∧
           geometry_view a h' = geometry_view self h) ∧
  (∀ a h', ArrayDesign.get_perturbed_copy self p new_name h = (Ok a, h') →
           geometry_view a h' = geometry_view self h).
Proof.
  intros Ho Hold Hnew. rewrite (geometry_view_run _ _ _ Ho). split.
  - eexists _, _. split; [by apply get_perturbation_free_copy_run|].
    by erewrite geometry_view_run by apply lookup_snoc.
  - intros a h'.
    rewrite (get_perturbed_copy_run self p new_name o old new h Ho Hold Hnew).
    destruct (for_each ArrayDesign.validate_item (dict_merge old new)) as [[]| |]; [|done..].
    intros [= <- <-]. by erewrite geometry_view_run by apply lookup_snoc.
Qed.

(** Two copies in a row: the second has the entries of the second
    dictionary, then those of the first, then those of the receiver, and the
    receiver and the first copy are what they were. *)
Theorem perturbed_copy_twice self p1 p2 name1 name2 o old new1 new2 h a1 h1 a2 h2 :
  objects h !! self = Some o →
  dicts h !! _perturbations o = Some old →
  dicts h !! p1 = Some new1 →
  dicts h !! p2 = Some new2 →
  NoDup (dict_keys new1) →
  NoDup (dict_keys new2) →
  ArrayDesign.get_perturbed_copy self p1 name1 h = (Ok a1, h1) →
  ArrayDesign.get_perturbed_copy a1 p2 name2 h1 = (Ok a2, h2) →
  ∃ d2,
    (ArrayDesign.perturbations a2 h2).1 = Ok d2 ∧
    (∀ k, dict_get d2 k =
          match dict_get new2 k with
          | Some v => Some v
          | None => match dict_get new1 k with
                    | Some v => Some v
                    | None => dict_get old k
                    end
          end) ∧
    receiver_view self h2 = receiver_view self h ∧
    receiver_view a1 h2 = receiver_view a1 h1.
Proof.
  intros Ho Hold Hnew1 Hnew2 Hnd1 Hnd2.
  rewrite (get_perturbed_copy_run self p1 name1 o old new1 h Ho Hold Hnew1).
  destruct (for_each ArrayDesign.validate_item (dict_merge old new1)) as [[]| |]; [|done..].
  intros [= <- <-].
  set (c1 := with_perturbations (S (length (dicts h)))
               (free_copy_of o (length (dicts h)) name1)).
  set (h1 := Heap _ _ _).
  assert (objects h1 !! length (objects h) = Some c1) as Hc1 by apply lookup_snoc.
  assert (dicts h1 !! _perturbations c1 = Some (dict_merge old new1)) as Hm1
    by apply lookup_snoc2.
  assert (dicts h1 !! p2 = Some new2) as Hnew2' by (by apply lookup_app_l_Some).
  rewrite (get_perturbed_copy_run _ p2 name2 c1 _ new2 h1 Hc1 Hm1 Hnew2').
  destruct (for_each ArrayDesign.validate_item (dict_merge (dict_merge old new1) new2))
    as [[]| |]; [|done..].
  intros [= <- <-].
  exists (dict_merge (dict_merge old new1) new2). split; [|split; [|split]].
  - unfold ArrayDesign.perturbations. rewrite bind_run.
    erewrite get_object_run by apply lookup_snoc. simpl.
    by rewrite lookup_snoc2.
  - intros k. rewrite dict_get_merge by done. rewrite dict_get_merge by done. done.
  - rewrite (receiver_view_run self o old h Ho Hold).
    apply receiver_view_run; simpl.
    + apply lookup_app_l_Some. by apply lookup_app_l_Some.
    + apply lookup_app_l_Some. by apply lookup_app_l_Some.
  - rewrite (receiver_view_run _ c1 _ h1 Hc1 Hm1).
    apply receiver_view_run; simpl; by apply lookup_app_l_Some.
Qed.

Lemma filter_all_known d :
  Forall (λ kv, ArrayDesign.known_flag kv.2 = Ok true) d →
  List.filter (λ kv, is_known kv.2) d = d.
Proof.
  induction 1 as [|[k v] d' Hv _ IH]; [done|].
  simpl in *. unfold is_known at 1. rewrite Hv. by f_equal.
Qed.

(** When every stored entry is known, ['known'] is ['all']; for a design
    without perturbations the three filters give the same steering matrix. *)
Theorem known_is_all_when_all_known self o d sources (wavelength : pyobj F)
    (compute_derivatives : bool) h :
  objects h !! self = Some o →
  dicts h !! _perturbations o = Some d →
  (Forall (λ kv, ArrayDesign.known_flag kv.2 = Ok true) d →
     ArrayDesign.steering_matrix self sources wavelength compute_derivatives "known" h =
     ArrayDesign.steering_matrix self sources wavelength compute_derivatives "all" h) ∧
  (d = [] →
     ArrayDesign.steering_matrix self sources wavelength compute_derivatives "none" h =
     ArrayDesign.steering_matrix self sources wavelength compute_derivatives "all" h).
Proof.
  intros Ho Hd.
  assert (ArrayDesign.filter_perturbations self "all" h = (Ok d, h)) as Hall.
  { unfold ArrayDesign.filter_perturbations. simpl.
    by rewrite bind_run, (get_object_run _ _ _ Ho), (get_dict_run _ _ _ Hd). }
  split.
  - intros Hknown.
    assert (ArrayDesign.filter_perturbations self "known" h = (Ok d, h)) as Hk.
    { unfold ArrayDesign.filter_perturbations. simpl.
      rewrite bind_run, (get_object_run _ _ _ Ho).
      rewrite bind_run, (get_dict_run _ _ _ Hd). unfold lift.
      rewrite known_items_filter, filter_all_known; [done..|].
      eapply Forall_impl; [exact Hknown|]. intros kv Hkv. by exists true. }
    by rewrite !steering_matrix_tail, !bind_run, Hk, Hall.
  - intros ->.
    assert (ArrayDesign.filter_perturbations self "none" h = (Ok [], h)) as Hn by done.
    by rewrite !steering_matrix_tail, !bind_run, Hn, Hall.
Qed.
End accessors.

(** The design with gain errors, a second dictionary with phase errors, and
    the copies made of them. *)
Lemma returned_designs_are_validated_witness :
  ∃ a h',
    ArrayDesign.get_perturbed_copy 0%nat 2%nat None Scenario.h_gain = (Ok a, h') ∧
    (ArrayDesign.perturbations a h').1 =
      Ok [("gain_errors", Scenario.gain); ("phase_errors", Scenario.phase)] ∧
    (length [("gain_errors", Scenario.gain); ("phase_errors", Scenario.phase)] ≤ 4)%nat.
Proof.
  destruct (returned_designs_are_validated (PyNdarray Scenario.two_elements) "pair" None
              0%nat 2%nat None (Scenario.design 1) [("gain_errors", Scenario.gain)]
              [("phase_errors", Scenario.phase)] [] Scenario.h_gain
              eq_refl eq_refl eq_refl eq_refl) as [_ Hcopy].
  eexists _, _. split; [reflexivity|].
  destruct (Hcopy _ _ eq_refl) as (Hp & _ & _ & Hfour).
  split; [exact Hp|]. apply Hfour. apply NoDup_singleton.
Defined.

Lemma accessors_agree_witness :
  (ArrayDesign.has_perturbation 0%nat "gain_errors" Scenario.h_gain).1 = Ok true ∧
  (ArrayDesign.get_perturbation_params 0%nat "gain_errors" Scenario.h_gain).1 =
    Ok (Value (Symbolic.scalar (Symbolic.Var "g"))) ∧
  (ArrayDesign.is_perturbation_known 0%nat "gain_errors" Scenario.h_gain).1 =
    Ok (Value (PyBool true)) ∧
  (ArrayDesign.get_perturbation_params 0%nat "phase_errors" Scenario.h_gain).1 =
    Ok (KeyError "phase_errors").
Proof.
  destruct (accessors_agree 0%nat (Scenario.design 1) [("gain_errors", Scenario.gain)]
              "gain_errors" Scenario.h_gain eq_refl eq_refl) as (_ & _ & Hpair).
  destruct (accessors_agree 0%nat (Scenario.design 1) [("gain_errors", Scenario.gain)]
              "phase_errors" Scenario.h_gain eq_refl eq_refl) as (Hmissing & _ & _).
  destruct (Hpair _ _ eq_refl) as (Hhas & Hparams & Hknown).
  split; [exact Hhas|]. split; [exact Hparams|]. split; [exact Hknown|].
  by apply Hmissing.
Defined.

Lemma perturbed_copy_lookup_witness :
  ∃ a h',
    ArrayDesign.get_perturbed_copy 0%nat 2%nat None Scenario.h_gain = (Ok a, h') ∧
    (ArrayDesign.get_perturbation_params a "phase_errors" h').1 =
      Ok (Value (Symbolic.scalar (Symbolic.Var "p"))) ∧
    (ArrayDesign.get_perturbation_params a "gain_errors" h').1 =
      (ArrayDesign.get_perturbation_params 0%nat "gain_errors" Scenario.h_gain).1.
Proof.
  eexists _, _. split; [reflexivity|]. split.
  - exact (proj1 (proj2 (perturbed_copy_lookup 0%nat 2%nat None (Scenario.design 1)
      [("gain_errors", Scenario.gain)] [("phase_errors", Scenario.phase)]
      "phase_errors" Scenario.h_gain _ _ eq_refl eq_refl eq_refl (NoDup_singleton _)
      eq_refl))).
  - exact (proj1 (proj2 (perturbed_copy_lookup 0%nat 2%nat None (Scenario.design 1)
      [("gain_errors", Scenario.gain)] [("phase_errors", Scenario.phase)]
      "gain_errors" Scenario.h_gain _ _ eq_refl eq_refl eq_refl (NoDup_singleton _)
      eq_refl))).
Defined.

Lemma copies_keep_the_geometry_witness :
  ∃ a h',
    ArrayDesign.get_perturbed_copy 0%nat 2%nat (Some "copy") Scenario.h_gain = (Ok a, h') ∧
    geometry_view a h' = geometry_view 0%nat Scenario.h_gain ∧
    (ArrayDesign.element_locations a h').1 = Ok Scenario.two_elements.
Proof.
  eexists _, _. split; [reflexivity|]. split; [|reflexivity].
  exact (proj2 (copies_keep_the_geometry 0%nat 2%nat (Some "copy") (Scenario.design 1)
    [("gain_errors", Scenario.gain)] [("phase_errors", Scenario.phase)] Scenario.h_gain
    eq_refl eq_refl eq_refl) _ _ eq_refl).
Defined.

(** Gain errors, then phase errors, then other gain errors: the last gain
    errors are the ones the second copy has. *)
Lemma perturbed_copy_twice_witness :
  ∃ a1 h1 a2 h2 d2,
    ArrayDesign.get_perturbed_copy 0%nat 2%nat None Scenario.h_gain = (Ok a1, h1) ∧
    ArrayDesign.get_perturbed_copy a1 1%nat None h1 = (Ok a2, h2) ∧
    (ArrayDesign.perturbations a2 h2).1 = Ok d2 ∧
    dict_get d2 "phase_errors" = Some Scenario.phase ∧
    receiver_view 0%nat h2 = receiver_view 0%nat Scenario.h_gain.
Proof.
  let first := eval vm_compute in
    (ArrayDesign.get_perturbed_copy 0%nat 2%nat None Scenario.h_gain) in
  lazymatch first with
  | (Ok ?a1, ?h1) =>
    assert (ArrayDesign.get_perturbed_copy 0%nat 2%nat None Scenario.h_gain = (Ok a1, h1))
      as Hfirst by (vm_compute; reflexivity);
    let second := eval vm_compute in (ArrayDesign.get_perturbed_copy a1 1%nat None h1) in
    lazymatch second with
    | (Ok ?a2, ?h2) =>
      assert (ArrayDesign.get_perturbed_copy a1 1%nat None h1 = (Ok a2, h2))
        as Hsecond by (vm_compute; reflexivity);
      destruct (perturbed_copy_twice 0%nat 2%nat 1%nat None None (Scenario.design 1)
                  [("gain_errors", Scenario.gain)] [("phase_errors", Scenario.phase)]
                  [("gain_errors", Scenario.gain)] Scenario.h_gain a1 h1 a2 h2
                  eq_refl eq_refl eq_refl eq_refl
                  (NoDup_singleton _) (NoDup_singleton _) Hfirst Hsecond)
        as (d2 & Hd2 & Hget & Hself & _);
      exists a1, h1, a2, h2, d2
    end
  end.
  split; [exact Hfirst|]. split; [exact Hsecond|].
  split; [exact Hd2|]. split; [by rewrite Hget|exact Hself].
Defined.

Lemma known_is_all_witness :
  ArrayDesign.steering_matrix 0%nat Symbolic.sources (PyNumber (Symbolic.Num 1)) true
    "known" Scenario.h_gain =
  ArrayDesign.steering_matrix 0%nat Symbolic.sources (PyNumber (Symbolic.Num 1)) true
    "all" Scenario.h_gain.
Proof.
  assert (Forall (λ kv : string * pyobj Symbolic.expr,
                    ArrayDesign.known_flag kv.2 = Ok true)
            [("gain_errors", Scenario.gain)]) as Hknown.
  { constructor; [vm_compute; reflexivity|constructor]. }
  exact (proj1 (known_is_all_when_all_known 0%nat (Scenario.design 1)
                  [("gain_errors", Scenario.gain)] Symbolic.sources
                  (PyNumber (Symbolic.Num 1)) true Scenario.h_gain eq_refl eq_refl)
               Hknown).
Defined.

(** ** class UniformLinearArray and class NestedArray *)

Module UniformLinearArray.
Section methods.
Context `{Numpy F}.

Definition __init__ (n : Z) (d0 : F) (name : option string) (kwargs : option addr)
    : M F (instance F) :=
  let name := default ("ULA " +:+ pretty n) name in
  GridBasedArrayDesign.__init__ (reshape_column (vector (arange 0 n))) d0 name kwargs.

Definition new (n : Z) (d0 : F) (name : option string) (kwargs : option addr)
    : M F addr :=
  o ← __init__ n d0 name kwargs;
  new_object o.
End methods.
End UniformLinearArray.

(** The instance record has no field for the attributes [_n1] and [_n2] of a
    nested array: [__init__] gives them beside the other attributes, and the
    constructor call gives them beside the address of the new object. *)
Module NestedArray.
Section methods.
Context `{Numpy F}.

(** [np.concatenate((np.arange(0, n1), np.arange(1, n2 + 1) * (n1 + 1) - 1))] *)
Definition indices (n1 n2 : Z) : list Z :=
  arange 0 n1 ++ ((λ i, i * (n1 + 1) - 1) <$> arange 1 (n2 + 1)).

Definition __init__ (n1 n2 : Z) (d0 : F) (name : option string) (kwargs : option addr)
    : M F (instance F * (Z * Z)) :=
  let name := default ("Nested (" +:+ pretty n1 +:+ "," +:+ pretty n2 +:+ ")") name in
  o ← GridBasedArrayDesign.__init__ (reshape_column (vector (indices n1 n2))) d0 name kwargs;
  mret (o, (n1, n2)).

Definition new (n1 n2 : Z) (d0 : F) (name : option string) (kwargs : option addr)
    : M F (addr * (Z * Z)) :=
  '(o, n) ← __init__ n1 n2 d0 name kwargs;
  self ← new_object o;
  mret (self, n).
End methods.
End NestedArray.

(** ** Index lists *)

Lemma lookup_arange (a b : Z) (i : nat) :
  (i < Z.to_nat (b - a))%nat → arange a b !! i = Some (a + Z.of_nat i).
Proof.
  intros Hi. unfold arange. by rewrite list_lookup_fmap, lookup_seq_lt.
Qed.

Lemma NoDup_arange (a b : Z) : NoDup (arange a b).
Proof.
  unfold arange. apply NoDup_fmap_2_strong; [|apply NoDup_seq]. intros; lia.
Qed.

(** The elements of a list of integers grow from left to right. *)
Definition increasing (l : list Z) : Prop :=
  ∀ i j x y, (i < j)%nat → l !! i = Some x → l !! j = Some y → x < y.

Lemma increasing_NoDup (l : list Z) : increasing l → NoDup l.
Proof.
  intros Hinc. apply NoDup_alt. intros i j x Hi Hj.
  destruct (Nat.lt_trichotomy i j) as [Hlt|[->|Hgt]]; [|done|].
  - pose proof (Hinc i j x x Hlt Hi Hj). lia.
  - pose proof (Hinc j i x x Hgt Hj Hi). lia.
Qed.

Lemma increasing_app (l k : list Z) :
  increasing l → increasing k → (∀ x y, x ∈ l → y ∈ k → x < y) → increasing (l ++ k).
Proof.
  intros Hl Hk Hlk i j x y Hij Hi Hj.
  apply lookup_app_Some in Hi as [Hi|[Hlen Hi]], Hj as [Hj|[Hlen' Hj]].
  - by apply (Hl i j).
  - apply Hlk; by eapply list_elem_of_lookup_2.
  - apply lookup_lt_Some in Hj. lia.
  - apply (Hk (i - length l)%nat (j - length l)%nat); [lia|done..].
Qed.

Lemma increasing_fmap (f : Z → Z) (l : list Z) :
  (∀ x y, x < y → f x < f y) → increasing l → increasing (f <$> l).
Proof.
  intros Hf Hl i j x y Hij. rewrite !list_lookup_fmap.
  destruct (l !! i) as [x'|] eqn:Hi, (l !! j) as [y'|] eqn:Hj; simpl; try done.
  intros [= <-] [= <-]. apply Hf. by apply (Hl i j).
Qed.

Lemma increasing_arange (a b : Z) : increasing (arange a b).
Proof.
  intros i j x y Hij Hi Hj.
  pose proof (lookup_lt_Some _ _ _ Hi) as Hli. pose proof (lookup_lt_Some _ _ _ Hj) as Hlj.
  rewrite length_arange in Hli, Hlj.
  rewrite lookup_arange in Hi, Hj by done. simplify_eq. lia.
Qed.

(** ** The catalog of geometries *)

Section catalog.
Context `{Numpy F}.
Implicit Types (h : heap F) (d : pdict F).

Lemma nested_indices_increasing (n1 n2 : Z) :
  0 ≤ n1 → increasing (NestedArray.indices n1 n2).
Proof.
  intros Hn1. unfold NestedArray.indices. apply increasing_app.
  - apply increasing_arange.
  - apply increasing_fmap; [intros; nia|apply increasing_arange].
  - intros x y Hx (i & -> & Hi)%list_elem_of_fmap.
    apply elem_of_arange in Hx, Hi. nia.
Qed.

Lemma length_nested_indices (n1 n2 : Z) :
  length (NestedArray.indices n1 n2) = (Z.to_nat n1 + Z.to_nat n2)%nat.
Proof.
  unfold NestedArray.indices. rewrite length_app, length_fmap, !length_arange. lia.
Qed.

(** [UniformLinearArray(n, d0)] has [n] elements on one axis, the element
    [i] at [i * d0]; for [n <= 0] it is an array without elements, and no
    error. *)
Theorem uniform_linear_array (n : Z) (d0 : F) name kwargs d h :
  dicts h !! default default_perturbations kwargs = Some d →
  for_each ArrayDesign.validate_item d = Ok () →
  ∃ self h' locations,
    UniformLinearArray.new n d0 name kwargs h = (Ok self, h') ∧
    ArrayDesign.element_locations self h' = (Ok locations, h') ∧
    shape locations = [Z.to_nat n; 1%nat] ∧
    ArrayDesign.size self h' = (Ok (Z.to_nat n), h') ∧
    ArrayDesign.ndim self h' = (Ok 1%nat, h') ∧
    ArrayDesign.name self h' = (Ok (default ("ULA " +:+ pretty n) name), h') ∧
    (∀ i : nat, (i < Z.to_nat n)%nat →
       entry 1 (flat locations) i 0 = Some (s_mul (s_of_Z (Z.of_nat i)) d0)).
Proof.
  intros Hd Hvalid.
  set (o := grid_instance (arange 0 n) d0 (default ("ULA " +:+ pretty n) name) kwargs
              None None).
  exists (length (objects h)), (Heap (dicts h) (objects h ++ [o]) (warnings h)),
    (_locations o).
  assert ((objects h ++ [o]) !! length (objects h) = Some o) as Ho by apply lookup_snoc.
  split; [|split; [|split; [|split; [|split; [|split]]]]].
  - unfold UniformLinearArray.new, UniformLinearArray.__init__.
    change (reshape_column (vector (arange 0 n))) with (column (arange 0 n)).
    rewrite bind_run, (grid_init_run _ _ _ _ d) by done. by rewrite Hvalid.
  - unfold ArrayDesign.element_locations. by rewrite bind_run, (get_object_run _ o).
  - simpl. rewrite length_arange. do 2 f_equal. lia.
  - unfold ArrayDesign.size. rewrite bind_run, (get_object_run _ o) by done.
    unfold lift, shape_at. simpl. rewrite length_arange. do 3 f_equal. lia.
  - by rewrite (ndim_run _ o).
  - unfold ArrayDesign.name. by rewrite bind_run, (get_object_run _ o).
  - intros i Hi. unfold entry. simpl.
    rewrite Nat.mul_1_r, Nat.add_0_r, list_lookup_fmap, lookup_arange by lia.
    simpl. repeat f_equal; lia.
Qed.

(** [NestedArray(n1, n2, d0)] with [n1 >= 0] has [n1 + n2] elements (those
    of a negative [n2] being none) at indices that grow from one element to
    the next, so no two elements are at the same place. *)
Theorem nested_array (n1 n2 : Z) (d0 : F) name kwargs d h :
  dicts h !! default default_perturbations kwargs = Some d →
  for_each ArrayDesign.validate_item d = Ok () →
  0 ≤ n1 →
  ∃ self h',
    NestedArray.new n1 n2 d0 name kwargs h = (Ok (self, (n1, n2)), h') ∧
    GridBasedArrayDesign.element_indices self h' =
      (Ok (Some (column (NestedArray.indices n1 n2))), h') ∧
    ArrayDesign.size self h' = (Ok (Z.to_nat n1 + Z.to_nat n2)%nat, h') ∧
    ArrayDesign.ndim self h' = (Ok 1%nat, h') ∧
    increasing (NestedArray.indices n1 n2) ∧
    NoDup (NestedArray.indices n1 n2) ∧
    (1 ≤ n2 → last (NestedArray.indices n1 n2) = Some (n2 * (n1 + 1) - 1)).
Proof.
  intros Hd Hvalid Hn1.
  set (nm := default ("Nested (" +:+ pretty n1 +:+ "," +:+ pretty n2 +:+ ")") name).
  set (o := grid_instance (NestedArray.indices n1 n2) d0 nm kwargs None None).
  exists (length (objects h)), (Heap (dicts h) (objects h ++ [o]) (warnings h)).
  assert ((objects h ++ [o]) !! length (objects h) = Some o) as Ho by apply lookup_snoc.
  pose proof (nested_indices_increasing n1 n2 Hn1) as Hinc.
  split; [|split; [|split; [|split; [|split; [done|split]]]]].
  - unfold NestedArray.new, NestedArray.__init__. fold nm.
    change (reshape_column (vector (NestedArray.indices n1 n2)))
      with (column (NestedArray.indices n1 n2)).
    rewrite !bind_run, (grid_init_run _ _ _ _ d) by done. by rewrite Hvalid.
  - unfold GridBasedArrayDesign.element_indices.
    by rewrite bind_run, (get_object_run _ o).
  - unfold ArrayDesign.size. rewrite bind_run, (get_object_run _ o) by done.
    unfold lift, shape_at. simpl. by rewrite length_nested_indices.
  - by rewrite (ndim_run _ o).
  - by apply increasing_NoDup.
  - intros Hn2. unfold NestedArray.indices.
    assert (arange 1 (n2 + 1) = arange 1 n2 ++ [n2]) as ->.
    { unfold arange. replace (Z.to_nat (n2 + 1 - 1)) with (S (Z.to_nat (n2 - 1))) by lia.
      rewrite seq_S, fmap_app. simpl. do 2 f_equal. lia. }
    rewrite fmap_app, app_assoc. simpl. by rewrite last_snoc.
Qed.

(** Two multiples [i * m = j * n] of co-prime numbers, with [0 <= i < n]:
    then [i = 0]. *)
Lemma coprime_multiples (m n i j : Z) :
  Z.gcd m n = 1 → 0 ≤ i < n → i * m = j * n → i = 0.
Proof.
  intros Hg Hi Heq.
  assert ((n | i)) as [k Hk].
  { apply (Z.gauss n m i); [exists j; lia|by rewrite Z.gcd_comm]. }
  destruct (Z.eq_dec k 0) as [->|Hk0]; [lia|].
  assert (k ≤ -1 ∨ 1 ≤ k) as [Hneg|Hpos] by lia.
  - assert (k * n ≤ -1 * n) by (apply Z.mul_le_mono_nonneg_r; lia). lia.
  - assert (1 * n ≤ k * n) by (apply Z.mul_le_mono_nonneg_r; lia). lia.
Qed.

Lemma NoDup_multiples (a b c : Z) : c ≠ 0 → NoDup ((λ i, i * c) <$> arange a b).
Proof.
  intros Hc. apply NoDup_fmap_2_strong; [|apply NoDup_arange]. intros; nia.
Qed.

Lemma coprime_indices_NoDup (m n : Z) :
  Z.gcd m n = 1 → 1 ≤ m → 1 ≤ n →
  NoDup (CoPrimeArray.indices_2m m n) ∧ NoDup (CoPrimeArray.indices_m m n).
Proof.
  intros Hg Hm Hn. unfold CoPrimeArray.indices_2m, CoPrimeArray.indices_m.
  split; apply NoDup_app; (split; [apply NoDup_multiples; lia|]);
    (split; [|apply NoDup_multiples; lia]);
    intros x (i & -> & Hi)%list_elem_of_fmap (j & Hj & Hjr)%list_elem_of_fmap;
    apply elem_of_arange in Hi, Hjr;
    pose proof (coprime_multiples m n i j Hg Hi Hj); nia.
Qed.

(** No two elements of a co-prime array are at the same place: the indices
    that [CoPrimeArray] stores for two numbers that are at least 1 are all
    different, in both modes, and the first is 0. *)
Theorem coprime_array_elements_distinct (m n : Z) (d0 : F) mode name kwargs d h self h' :
  dicts h !! default default_perturbations kwargs = Some d →
  1 ≤ m → 1 ≤ n →
  CoPrimeArray.new m n d0 mode name kwargs h = (Ok self, h') →
  ∃ idx,
    GridBasedArrayDesign.element_indices self h' = (Ok (Some (column idx)), h') ∧
    Z.gcd m n = 1 ∧
    NoDup idx ∧
    head idx = Some 0.
Proof.
  intros Hd Hm Hn. rewrite (coprime_new_run m n d0 mode name kwargs d h Hd). simpl.
  destruct (Z.eqb_spec (Z.gcd m n) 1) as [Hg|Hg]; simpl; [|done].
  assert (Z.gcd (Z.min m n) (Z.max m n) = 1) as Hg'.
  { destruct (Z.le_ge_cases m n).
    - by rewrite Z.min_l, Z.max_r by lia.
    - rewrite Z.min_r, Z.max_l by lia. by rewrite Z.gcd_comm. }
  destruct (coprime_indices_NoDup (Z.min m n) (Z.max m n) Hg') as [H2m Hm']; [lia..|].
  destruct (coprime_indices _ _ _) as [idx| |] eqn:Hidx; simpl; [|done..].
  destruct (for_each ArrayDesign.validate_item d) as [[]| |]; simpl; [|done..].
  intros [= <- <-]. exists idx.
  split; [|split; [done|]].
  - unfold GridBasedArrayDesign.element_indices. rewrite bind_run.
    by erewrite get_object_run by apply lookup_snoc.
  - assert (head (arange 0 (Z.max m n)) = Some 0) as Hhead.
    { unfold arange. replace (Z.to_nat (Z.max m n - 0)) with (S (Z.to_nat (Z.max m n - 1)))
        by lia. done. }
    unfold coprime_indices in Hidx. repeat case_decide; simplify_eq.
    + split; [done|]. unfold CoPrimeArray.indices_2m.
      destruct (arange 0 (Z.max m n)) as [|z l]; simpl in *; [done|].
      injection Hhead as ->. simpl. f_equal; lia.
    + split; [done|]. unfold CoPrimeArray.indices_m.
      destruct (arange 0 (Z.max m n)) as [|z l]; simpl in *; [done|].
      injection Hhead as ->. simpl. f_equal; lia.
Qed.
End catalog.

(** ** The table of minimum-redundancy presets *)

(** Checks on a list of indices: each index is below the next, and every
    lag from 1 to the last index is the difference of two indices. *)
Fixpoint increasingb (l : list Z) : bool :=
  match l with
  | x :: ((y :: _) as t) => (x <? y) && increasingb t
  | _ => true
  end.

Definition lag_covered (row : list Z) (lag : Z) : bool :=
  existsb (λ x, existsb (λ y, y - x =? lag) row) row.

Definition lags_covered (row : list Z) : bool :=
  forallb (lag_covered row) (arange 1 (default 0 (last row) + 1)).

Definition preset_checked (row : list Z) : bool :=
  bool_decide (head row = Some 0) && increasingb row && lags_covered row.

Lemma increasing_cons (x : Z) (l : list Z) :
  (∀ y, y ∈ l → x < y) → increasing l → increasing (x :: l).
Proof.
  intros Hx Hl [|i] [|j] a b Hij Hi Hj; simpl in *; simplify_eq; try lia.
  - apply Hx. by eapply list_elem_of_lookup_2.
  - apply (Hl i j); [lia|done..].
Qed.

Lemma increasingb_sound (l : list Z) : increasingb l = true → increasing l.
Proof.
  induction l as [|x [|y t] IH]; simpl.
  - intros _ i j a b _ Hi. done.
  - intros _ [|i] [|j] a b Hij Hi Hj; simpl in *; try done; lia.
  - intros [Hxy Ht]%andb_true_iff. apply Z.ltb_lt in Hxy.
    specialize (IH Ht). apply increasing_cons; [|done].
    intros z [->|Hz]%elem_of_cons; [done|].
    apply list_elem_of_lookup_1 in Hz as [i Hi].
    pose proof (IH 0%nat (S i) y z) as Hyz. simpl in Hyz.
    specialize (Hyz ltac:(lia) eq_refl Hi). lia.
Qed.

Lemma lags_covered_sound (row : list Z) :
  lags_covered row = true →
  ∀ lag, 1 ≤ lag ≤ default 0 (last row) → ∃ x y, x ∈ row ∧ y ∈ row ∧ y - x = lag.
Proof.
  unfold lags_covered, lag_covered. rewrite forallb_forall. intros Hall lag Hlag.
  assert (In lag (arange 1 (default 0 (last row) + 1))) as Hin.
  { apply list_elem_of_In, elem_of_arange. lia. }
  apply Hall, existsb_exists in Hin as (x & Hx & Hex).
  apply existsb_exists in Hex as (y & Hy & Hxy).
  exists x, y. rewrite <- !list_elem_of_In in *. split; [done|]. split; [done|lia].
Qed.

Lemma presets_checked : forallb preset_checked _MRLA_PRESETS = true.
Proof. by vm_compute. Qed.

Section mrla.
Context `{Numpy F}.
Implicit Types (h : heap F) (d : pdict F).

Lemma mrla_new_run (n : Z) (d0 : F) name kwargs d h :
  dicts h !! default default_perturbations kwargs = Some d →
  MinimumRedundancyLinearArray.new n d0 name kwargs h =
  if (n <? 1) || (n >=? Z.of_nat (length _MRLA_PRESETS))
  then (Raise (ValueError MRLAPresets), h)
  else match row ← MinimumRedundancyLinearArray.preset (n - 1);
             for_each ArrayDesign.validate_item d;; Ok row with
       | Ok row =>
           (Ok (length (objects h)),
            Heap (dicts h)
                 (objects h ++ [grid_instance row d0 (default ("MRLA " +:+ pretty n) name)
                                  kwargs None None])
                 (warnings h))
       | Raise e => (Raise e, h)
       | Stuck => (Stuck, h)
       end.
Proof.
  intros Hd. unfold MinimumRedundancyLinearArray.new, MinimumRedundancyLinearArray.__init__.
  destruct ((n <? 1) || (n >=? Z.of_nat (length _MRLA_PRESETS))); [done|].
  rewrite !bind_run. unfold lift at 1.
  destruct (MinimumRedundancyLinearArray.preset (n - 1)) as [row| |]; [|done..].
  rewrite (grid_init_run _ _ _ _ d) by done. simpl.
  by destruct (for_each ArrayDesign.validate_item d) as [[]| |].
Qed.

(** Every array that [MinimumRedundancyLinearArray] returns has [n]
    elements at indices that start at 0 and grow, and its differences leave
    no hole: every lag from 1 to the last index is the distance of two of
    its elements. *)
Theorem mrla_has_no_holes (n : Z) (d0 : F) name kwargs d h self h' :
  dicts h !! default default_perturbations kwargs = Some d →
  MinimumRedundancyLinearArray.new n d0 name kwargs h = (Ok self, h') →
  ∃ row,
    GridBasedArrayDesign.element_indices self h' = (Ok (Some (column row)), h') ∧
    Z.of_nat (length row) = n ∧
    head row = Some 0 ∧
    increasing row ∧
    ∀ lag, 1 ≤ lag ≤ default 0 (last row) → ∃ x y, x ∈ row ∧ y ∈ row ∧ y - x = lag.
Proof.
  intros Hd. rewrite (mrla_new_run n d0 name kwargs d h Hd).
  destruct ((n <? 1) || (n >=? Z.of_nat (length _MRLA_PRESETS))) eqn:Hn; [done|].
  apply orb_false_iff in Hn as [Hlo Hhi]. apply Z.ltb_ge in Hlo.
  rewrite Z.geb_leb in Hhi. apply Z.leb_gt in Hhi. simpl length in Hhi.
  destruct (preset_row n) as (row & Hrow & Hlen); [lia|]. rewrite Hrow. simpl.
  destruct (for_each ArrayDesign.validate_item d) as [[]| |]; simpl; [|done..].
  intros [= <- <-]. exists row.
  assert (preset_checked row = true) as Hchecked.
  { pose proof presets_checked as Hall. rewrite forallb_forall in Hall. apply Hall.
    unfold MinimumRedundancyLinearArray.preset in Hrow.
    destruct (_MRLA_PRESETS !! Z.to_nat (n - 1)) as [r|] eqn:Hr; simplify_eq.
    apply list_elem_of_In. by eapply list_elem_of_lookup_2. }
  unfold preset_checked in Hchecked.
  apply andb_true_iff in Hchecked as [[Hhead Hinc]%andb_true_iff Hlags].
  apply bool_decide_eq_true in Hhead.
  split; [|split; [done|split; [done|split]]].
  - unfold GridBasedArrayDesign.element_indices. rewrite bind_run.
    by erewrite get_object_run by apply lookup_snoc.
  - by apply increasingb_sound.
  - by apply lags_covered_sound.
Qed.

Lemma bind_Ok_inv {A B} (m : M F A) (f : A → M F B) h (b : B) h' :
  (m ≫= f) h = (Ok b, h') → ∃ a h1, m h = (Ok a, h1) ∧ f a h1 = (Ok b, h').
Proof. rewrite bind_run. destruct (m h) as [[a| |] h1]; [eauto|done..]. Qed.

Lemma ascii_lower_idempotent (c : ascii) : ascii_lower (ascii_lower c) = ascii_lower c.
Proof. destruct c as [[] [] [] [] [] [] [] []]; reflexivity. Qed.

Lemma lower_idempotent (s : string) : lower (lower s) = lower s.
Proof. induction s as [|c s IH]; simpl; [done|]. by rewrite ascii_lower_idempotent, IH. Qed.

(** The mode of a co-prime array is read without regard to case: ['2M'] is
    ['2m'] and ['M'] is ['m'], and the mode that is stored is the lowered
    one. *)
Theorem coprime_mode_ignores_case (m n : Z) (d0 : F) (mode : string) name kwargs h :
  CoPrimeArray.new m n d0 (Some mode) name kwargs h =
  CoPrimeArray.new m n d0 (Some (lower mode)) name kwargs h ∧
  ∀ self h' o, CoPrimeArray.new m n d0 (Some mode) name kwargs h = (Ok self, h') →
               objects h' !! self = Some o →
               _mode o = Some (lower mode) ∧ (lower mode = "2m" ∨ lower mode = "m").
Proof.
  split.
  - unfold CoPrimeArray.new, CoPrimeArray.__init__. simpl default.
    by rewrite lower_idempotent.
  - intros self h' o. unfold CoPrimeArray.new. simpl default.
    intros (o' & h1 & Hinit & Hobj)%bind_Ok_inv Ho.
    unfold new_object in Hobj. injection Hobj as <- <-. simpl in Ho.
    rewrite lookup_snoc in Ho. injection Ho as <-.
    revert Hinit. unfold CoPrimeArray.__init__.
    intros ([m' n'] & h2 & _ & Hinit)%bind_Ok_inv. revert Hinit. cbv beta iota.
    destruct (negb (Z.gcd m' n' =? 1)); [done|].
    intros (idx & h3 & Hidx & Hinit)%bind_Ok_inv.
    apply bind_Ok_inv in Hinit as (g & h4 & _ & Hret).
    cbv [mret M_ret] in Hret. injection Hret as <- _. simpl. split; [done|].
    revert Hidx.
    destruct (decide (lower mode = "2m")); [auto|].
    destruct (decide (lower mode = "m")); [auto|]. unfold raise, lift. done.
Qed.
End mrla.

(** ** class UniformCircularArray *)

(** The floating-point arithmetic of [UniformCircularArray.__init__], none
    of it in the repository: the literals [0.], [2.0] and [np.pi], [-], the
    division of a number by a non-zero integer, [np.cos], [np.sin] and
    [np.linspace(start, stop, num)]. *)
Record Floats (F : Type) := {
  f_0 : F;
  f_2 : F;
  f_pi : F;
  f_sub : F → F → F;
  f_div : F → Z → F;
  f_cos : F → F;
  f_sin : F → F;
  np_linspace : F → F → Z → result (list F)
}.
Arguments f_0 {F} _.
Arguments f_2 {F} _.
Arguments f_pi {F} _.
Arguments f_sub {F} _ _ _.
Arguments f_div {F} _ _ _.
Arguments f_cos {F} _ _.
Arguments f_sin {F} _ _.
Arguments np_linspace {F} _ _ _ _.

(** [2.0 / n] raises [ZeroDivisionError] for [n = 0]. *)
Inductive divided (A : Type) :=
  | Quotient (a : A)
  | ZeroDivisionError.
Arguments Quotient {A} a.
Arguments ZeroDivisionError {A}.

(** The instance record has no field for the attribute [_r]: [__init__]
    gives it beside the other attributes.  The keyword arguments are
    accepted and not passed on: [super().__init__(locations, name)]. *)
Module UniformCircularArray.
Section methods.
Context `{Numpy F} (fl : Floats F).

(** [np.vstack((r * np.cos(theta), r * np.sin(theta))).T]: the angles that
    [np.linspace] returns are real, and so are their cosines and sines. *)
Definition circle (r : F) (theta : list F) : ndarray F :=
  Ndarray (result_type (s_dtype r) Float64) [length theta; 2%nat]
    (flat_map (λ t, [s_mul r (f_cos fl t); s_mul r (f_sin fl t)]) theta).

Definition __init__ (n : Z) (r : F) (name : option string) (kwargs : option addr)
    : M F (divided (instance F * F)) :=
  let name := default ("UCA " +:+ pretty n) name in
  if (n =? 0)%Z then mret ZeroDivisionError else
  theta ← lift (np_linspace fl (f_0 fl)
                  (s_mul (f_pi fl) (f_sub fl (f_2 fl) (f_div fl (f_2 fl) n))) n);
  let locations := circle r theta in
  o ← ArrayDesign.__init__ (PyNdarray locations) name default_perturbations;
  mret (Quotient (o, r)).

Definition new (n : Z) (r : F) (name : option string) (kwargs : option addr)
    : M F (divided (addr * F)) :=
  init ← __init__ n r name kwargs;
  match init with
  | Quotient (o, r) => self ← new_object o; mret (Quotient (self, r))
  | ZeroDivisionError => mret ZeroDivisionError
  end.
End methods.
End UniformCircularArray.

Section circular.
Context `{Numpy F} (fl : Floats F).
Implicit Types (h : heap F) (d : pdict F).

Lemma length_circle (r : F) (theta : list F) :
  length (flat (UniformCircularArray.circle fl r theta)) = (length theta * 2)%nat.
Proof.
  unfold UniformCircularArray.circle. simpl.
  induction theta as [|t theta IH]; simpl; [done|]. by rewrite IH.
Qed.

(** [UniformCircularArray(n, r)]: for [n = 0] the division [2.0 / n] raises
    and nothing is built.  Otherwise, with the angles that [np.linspace]
    returns, the design has one row [(r cos t, r sin t)] per angle on two
    axes, which the constructor never refuses as a geometry; and its
    perturbations are the default dictionary whatever keyword arguments were
    given: they are neither validated nor stored. *)
Theorem uniform_circular_array (n : Z) (r : F) name kwargs d h :
  dicts h !! default_perturbations = Some d →
  for_each ArrayDesign.validate_item d = Ok () →
  (n = 0 → UniformCircularArray.new fl n r name kwargs h = (Ok ZeroDivisionError, h)) ∧
  (n ≠ 0 → ∀ theta,
     np_linspace fl (f_0 fl)
       (s_mul (f_pi fl) (f_sub fl (f_2 fl) (f_div fl (f_2 fl) n))) n = Ok theta →
     ∃ self h' o,
       UniformCircularArray.new fl n r name kwargs h = (Ok (Quotient (self, r)), h') ∧
       objects h' !! self = Some o ∧
       _perturbations o = default_perturbations ∧
       ArrayDesign.perturbations self h' = (Ok d, h') ∧
       ArrayDesign.size self h' = (Ok (length theta), h') ∧
       ArrayDesign.ndim self h' = (Ok 2%nat, h') ∧
       wf_ndarray (_locations o) ∧
       ∀ i t, theta !! i = Some t →
         entry 2 (flat (_locations o)) i 0 = Some (s_mul r (f_cos fl t)) ∧
         entry 2 (flat (_locations o)) i 1 = Some (s_mul r (f_sin fl t))).
Proof.
  intros Hd Hvalid. split.
  - intros ->. done.
  - intros Hn theta Htheta.
    set (o := MkInstance (UniformCircularArray.circle fl r theta)
                (default ("UCA " +:+ pretty n) name) default_perturbations
                None None None None None).
    exists (length (objects h)), (Heap (dicts h) (objects h ++ [o]) (warnings h)), o.
    assert ((objects h ++ [o]) !! length (objects h) = Some o) as Ho by apply lookup_snoc.
    split; [|split; [done|split; [done|split; [|split; [|split; [|split]]]]]].
    + unfold UniformCircularArray.new, UniformCircularArray.__init__.
      destruct (Z.eqb_spec n 0) as [?|_]; [done|].
      rewrite !bind_run. unfold lift at 1. rewrite Htheta, bind_run.
      rewrite (init_run _ (UniformCircularArray.circle fl r theta) _ _ d) by done.
      unfold normalized, nd_ndim, shape_at. simpl. by rewrite Hvalid.
    + unfold ArrayDesign.perturbations.
      rewrite bind_run, (get_object_run _ o) by done. simpl.
      by rewrite (get_dict_run _ d).
    + unfold ArrayDesign.size. by rewrite bind_run, (get_object_run _ o).
    + by rewrite (ndim_run _ o).
    + change (_locations o) with (UniformCircularArray.circle fl r theta).
      unfold wf_ndarray. rewrite length_circle. simpl. lia.
    + change (flat (_locations o)) with
        (flat_map (λ t, [s_mul r (f_cos fl t); s_mul r (f_sin fl t)]) theta).
      clear. unfold entry.
      induction theta as [|t0 theta IH]; intros [|i] t Hi; simplify_eq/=; [done|].
      exact (IH i t Hi).
Qed.
End circular.

(** Stand-ins for the floating-point functions on the symbolic NumPy: a
    function applied to a term is the product of its name and the term, and
    the [i]-th of [num] angles is [i] times a step. *)
Definition symbolic_floats : Floats Symbolic.expr := {|
  f_0 := Symbolic.Num 0;
  f_2 := Symbolic.Num 2;
  f_pi := Symbolic.Var "pi";
  f_sub := λ a b, Symbolic.Add a (Symbolic.Mul (Symbolic.Num (-1)) b);
  f_div := λ a n, Symbolic.Mul a (Symbolic.Mul (Symbolic.Var "1/") (Symbolic.Num n));
  f_cos := λ t, Symbolic.Mul (Symbolic.Var "cos") t;
  f_sin := λ t, Symbolic.Mul (Symbolic.Var "sin") t;
  np_linspace := λ start stop num,
    if (num <? 0)%Z then Raise (ValueError Broadcast)
    else Ok ((λ i, Symbolic.Mul (Symbolic.Var "step") (Symbolic.Num i)) <$> arange 0 num)
|}.

Lemma uniform_linear_array_witness :
  ∃ self h',
    UniformLinearArray.new 4 (Symbolic.Num 1) None None heap0 = (Ok self, h') ∧
    ArrayDesign.element_locations self h' =
      (Ok (Ndarray Int64 [4; 1]%nat [Symbolic.Num 0; Symbolic.Num 1; Symbolic.Num 2;
                                     Symbolic.Num 3]), h') ∧
    ArrayDesign.size self h' = (Ok 4%nat, h') ∧
    ArrayDesign.ndim self h' = (Ok 1%nat, h').
Proof.
  destruct (uniform_linear_array 4 (Symbolic.Num 1) None None [] heap0 eq_refl eq_refl)
    as (self & h' & locations & Hnew & Hlocations & _ & Hsize & Hndim & _).
  injection Hnew as <- <-.
  eexists _, _. split; [reflexivity|]. split; [reflexivity|]. split; assumption.
Defined.

Lemma nested_array_witness :
  ∃ self h',
    NestedArray.new 2 3 (Symbolic.Num 1) None None heap0 = (Ok (self, (2, 3)), h') ∧
    GridBasedArrayDesign.element_indices self h' =
      (Ok (Some (Ndarray Int64 [5; 1]%nat [0; 1; 2; 5; 8])), h') ∧
    NoDup (NestedArray.indices 2 3).
Proof.
  destruct (nested_array 2 3 (Symbolic.Num 1) None None [] heap0 eq_refl eq_refl
              ltac:(lia))
    as (self & h' & Hnew & Hindices & _ & _ & _ & Hdistinct & _).
  exists self, h'. split; [exact Hnew|]. split; [exact Hindices|exact Hdistinct].
Defined.

Lemma coprime_array_elements_distinct_witness :
  ∃ idx,
    GridBasedArrayDesign.element_indices 0%nat
      (CoPrimeArray.new 9 4 (Symbolic.Num 1) (Some "M") None None heap0).2 =
      (Ok (Some (column idx)),
       (CoPrimeArray.new 9 4 (Symbolic.Num 1) (Some "M") None None heap0).2) ∧
    idx = [0; 4; 8; 12; 16; 20; 24; 28; 32; 9; 18; 27] ∧
    NoDup idx.
Proof.
  assert (CoPrimeArray.new 9 4 (Symbolic.Num 1) (Some "M") None None heap0 =
          (Ok 0%nat, (CoPrimeArray.new 9 4 (Symbolic.Num 1) (Some "M") None None heap0).2))
    as Hnew by (vm_compute; reflexivity).
  destruct (coprime_array_elements_distinct 9 4 (Symbolic.Num 1) (Some "M") None None []
              heap0 _ _ eq_refl ltac:(lia) ltac:(lia) Hnew)
    as (idx & Hidx & _ & Hdistinct & _).
  exists idx. split; [exact Hidx|]. split; [|exact Hdistinct].
  vm_compute in Hidx. congruence.
Defined.

Lemma mrla_has_no_holes_witness :
  ∃ row,
    GridBasedArrayDesign.element_indices 0%nat
      (MinimumRedundancyLinearArray.new 4 (Symbolic.Num 1) None None heap0).2 =
      (Ok (Some (column row)),
       (MinimumRedundancyLinearArray.new 4 (Symbolic.Num 1) None None heap0).2) ∧
    row = [0; 1; 4; 6] ∧
    ∃ x y, x ∈ row ∧ y ∈ row ∧ y - x = 5.
Proof.
  assert (MinimumRedundancyLinearArray.new 4 (Symbolic.Num 1) None None heap0 =
          (Ok 0%nat, (MinimumRedundancyLinearArray.new 4 (Symbolic.Num 1) None None heap0).2))
    as Hnew by (vm_compute; reflexivity).
  destruct (mrla_has_no_holes 4 (Symbolic.Num 1) None None [] heap0 _ _ eq_refl Hnew)
    as (row & Hrow & _ & _ & _ & Hlags).
  assert (row = [0; 1; 4; 6]) as Heq by (vm_compute in Hrow; congruence).
  exists row. split; [exact Hrow|]. split; [exact Heq|].
  apply Hlags. rewrite Heq. simpl. lia.
Defined.

Lemma uniform_circular_array_witness :
  UniformCircularArray.new symbolic_floats 0 (Symbolic.Var "r") None (Some 1%nat)
    Scenario.h_gain = (Ok ZeroDivisionError, Scenario.h_gain) ∧
  ∃ self h',
    UniformCircularArray.new symbolic_floats 4 (Symbolic.Var "r") None (Some 1%nat)
      Scenario.h_gain = (Ok (Quotient (self, Symbolic.Var "r")), h') ∧
    ArrayDesign.perturbations self h' = (Ok [], h') ∧
    ArrayDesign.size self h' = (Ok 4%nat, h') ∧
    ArrayDesign.ndim self h' = (Ok 2%nat, h').
Proof.
  destruct (uniform_circular_array symbolic_floats 0 (Symbolic.Var "r") None (Some 1%nat)
              [] Scenario.h_gain eq_refl eq_refl) as [Hzero _].
  destruct (uniform_circular_array symbolic_floats 4 (Symbolic.Var "r") None (Some 1%nat)
              [] Scenario.h_gain eq_refl eq_refl) as [_ Hfour].
  split; [by apply Hzero|].
  destruct (Hfour ltac:(lia) _ eq_refl)
    as (self & h' & o & Hnew & _ & _ & Hp & Hsize & Hndim & _).
  exists self, h'. split; [exact Hnew|]. split; [exact Hp|]. split; assumption.
Defined.
